(** * Travel assistant backend: intent detection, budget estimate, coin ledger

    A shallow embedding of [src/main.py] (with the record shapes of
    [src/schemas.py]) and the properties of it that the specification states.

    - Python [str] is [string]; [k in t] is substring search, and
      [str.lower] is taken on ASCII text, where it changes the capitals only.
    - Python [int] is [Z]; Python [float] is IEEE 754 binary64, taken from the
      executable specification [SpecFloat] ([prec = 53], [emax = 1024]).
    - Route handlers that read and write the document store are functions in
      a small state-and-exception monad over the store handle, what the
      store holds, and the clock.  The handle [db] comes from the [database]
      module, which is not among the sources: it is [None], or a handle whose
      truth test raises, or a handle that tests true, and the store keeps an
      [int] in 8 bytes. *)

From Stdlib Require Import ZArith QArith Qabs Qpower Bool List String Ascii Lia.
From Stdlib Require Import SpecFloat.
Import ListNotations.

Local Open Scope string_scope.
Local Open Scope Z_scope.

(** ** Strings *)

Module Str.

(** [c.lower()] on one character: only the ASCII capitals change. *)
Definition lower_ascii (c : ascii) : ascii :=
  let n := nat_of_ascii c in
  if (65 <=? n)%nat && (n <=? 90)%nat then ascii_of_nat (n + 32) else c.

(** Whether every character of [s] is an ASCII character. *)
Fixpoint is_ascii (s : string) : bool :=
  match s with
  | EmptyString => true
  | String c rest => (nat_of_ascii c <? 128)%nat && is_ascii rest
  end.

(** [text.lower()] on ASCII text, where only the capitals change; what
    [str.lower] does to other characters is not modelled, and the statements
    that range over texts are about ASCII texts. *)
Fixpoint lower (s : string) : string :=
  match s with
  | EmptyString => EmptyString
  | String c rest => String (lower_ascii c) (lower rest)
  end.

(** [k in t]: [k] occurs in [t] as a contiguous substring. *)
Fixpoint contains (k t : string) : bool :=
  String.prefix k t ||
  match t with
  | EmptyString => false
  | String _ rest => contains k rest
  end.

(** [any(k in t for k in ks)]. *)
Definition any_in (ks : list string) (t : string) : bool :=
  existsb (fun k => contains k t) ks.

End Str.

(** ** Intent detection *)

(** [detect_intent], rule by rule in the order of the source. *)
Definition detect_intent (text : string) : string :=
  let t := Str.lower text in
  if Str.any_in ["where should i travel"; "go where"; "destination"] t then "where_travel"
  else if Str.any_in ["budget"; "low money"; "cheap"] t then "budget_low"
  else if Str.any_in ["eat"; "food"; "restaurant"; "safe to eat"] t then "eat_safe"
  else if Str.any_in ["transport"; "bus"; "train"; "cab"] t then "transport_best"
  else if Str.contains "safe" t && Str.any_in ["girl"; "women"; "female"] t then "girls_safety"
  else if Str.any_in ["pack"; "packing"; "luggage"] t then "packing"
  else if Str.any_in ["reduce cost"; "save money"; "cost down"] t then "cost_reduce"
  else if Str.any_in ["confusing"; "fix plan"; "improve itinerary"] t then "confusing_plan"
  else if Str.any_in ["hidden"; "offbeat"; "secret"] t then "hidden_places"
  else if Str.any_in ["lost"; "missing"; "misplaced"] t then "lost_item"
  else if Str.any_in ["scared"; "unsafe"; "help me"] t then "scared"
  else if Str.any_in ["adventure"; "activities"] t then "adventures"
  else "general".

(** ** Python numbers *)

(** Exceptions the modelled handlers can raise. *)
Inductive exn : Type :=
  | KeyError (key : string)     (* a [dict[...]] lookup of a missing key *)
  | OverflowError               (* an [int] too large for a [float] or for the store *)
  | ValidationError             (* pydantic refuses a field value *)
  | AttributeError              (* a method call on [None] *)
  | TypeError                   (* [None[...]] *)
  | NotImplementedError         (* the truth test of a handle that has none *)
  | StoreUnavailable.           (* [create_document] without a store *)

(** A computation that returns or raises. *)
Definition result (A : Type) : Type := (exn + A)%type.

Definition ok {A} (a : A) : result A := inr a.
Definition raise {A} (e : exn) : result A := inl e.

Definition rbind {A B} (r : result A) (k : A -> result B) : result B :=
  match r with
  | inl e => inl e
  | inr a => k a
  end.

Declare Scope result_scope.
Delimit Scope result_scope with result.
Notation "x <- r ;; k" := (rbind r (fun x => k))
  (at level 61, r at next level, right associativity) : result_scope.

(** Python [float]: IEEE 754 binary64 with round-to-nearest-even. *)
Module F64.

Definition prec : Z := 53.
Definition emax : Z := 1024.

Definition float : Type := spec_float.

Definition add : float -> float -> float := SFadd prec emax.
Definition mul : float -> float -> float := SFmul prec emax.
Definition div : float -> float -> float := SFdiv prec emax.

(** The binary64 value nearest to the integer [n]. *)
Definition of_Z (n : Z) : float := binary_normalize prec emax n 0 false.

(** The binary64 value nearest to [num / den], for a literal such as [1.1];
    both integers are small enough to be exact, so one rounding happens. *)
Definition of_ratio (num den : Z) : float := div (of_Z num) (of_Z den).

Definition is_finite (x : float) : bool :=
  match x with
  | S754_zero _ | S754_finite _ _ _ => true
  | S754_infinity _ | S754_nan => false
  end.

(** The implicit [int] to [float] conversion of mixed arithmetic
    ([float * int], [float + int], [float / int]): the nearest binary64
    value, or [OverflowError] when that is not finite. *)
Definition int_to_float (n : Z) : result float :=
  let f := of_Z n in
  if is_finite f then ok f else raise OverflowError.

(** The exact rational value of a finite float (0 for the others). *)
Definition to_Q (x : float) : Q :=
  match x with
  | S754_finite s m e => (inject_Z (cond_Zopp s (Zpos m)) * 2 ^ e)%Q
  | _ => 0%Q
  end.

(** Two finite floats with the same sign, mantissa and exponent. *)
Definition same_finite (x y : float) : bool :=
  match x, y with
  | S754_finite s m e, S754_finite s' m' e' =>
      Bool.eqb s s' && Pos.eqb m m' && Z.eqb e e'
  | _, _ => false
  end.

(** The float with the same sign and mantissa and the next exponent. *)
Definition twice (x : float) : float :=
  match x with
  | S754_finite s m e => S754_finite s m (e + 1)
  | _ => x
  end.

(** [m * 2^e * 100] rounded to the nearest integer, ties to even. *)
Definition cents (m : positive) (e : Z) : Z :=
  match e with
  | Z0 => 100 * Zpos m
  | Zpos p => 100 * Zpos m * Z.pow_pos 2 p
  | Zneg p =>
      let d := Z.pow_pos 2 p in
      let q := (100 * Zpos m) / d in
      let r := (100 * Zpos m) mod d in
      match (2 * r ?= d) with
      | Lt => q
      | Gt => q + 1
      | Eq => if Z.even q then q else q + 1
      end
  end.

(** [round(x, 2)] on a float: the exact value is rounded half-to-even to two
    decimals and the binary64 value nearest to that decimal is returned;
    infinities and NaN round to themselves, and the sign of zero is kept. *)
Definition round2 (x : float) : float :=
  match x with
  | S754_finite s m e =>
      match cents m e with
      | Zpos n => div (S754_finite s n 0) (of_Z 100)
      | _ => S754_zero s
      end
  | _ => x
  end.

End F64.

(** ** Budget estimate *)

Record BudgetInput : Type := {
  bi_user_id : string;
  days : Z;
  travelers : Z;
  destination_type : string;
  accommodation : string;
  daily_style : string
}.

(** The [breakdown] dictionary: its four keys, every value a [float]
    ([Dict[str, float]]). *)
Record Breakdown : Type := {
  food : F64.float;
  transport : F64.float;
  misc : F64.float;
  stay : F64.float
}.

Record BudgetOutput : Type := {
  total_estimate : F64.float;
  per_day : F64.float;
  breakdown : Breakdown;
  suggestions : list string
}.

(** [d[key]] and [d.get(key, default)] on a dictionary literal. *)
Fixpoint dict_get {V} (d : list (string * V)) (key : string) : option V :=
  match d with
  | [] => None
  | (k, v) :: rest => if String.eqb k key then Some v else dict_get rest key
  end.

Definition dict_index {V} (d : list (string * V)) (key : string) : result V :=
  match dict_get d key with
  | Some v => ok v
  | None => raise (KeyError key)
  end.

Definition dict_get_default {V} (d : list (string * V)) (key : string) (default : V) : V :=
  match dict_get d key with
  | Some v => v
  | None => default
  end.

Definition base_rates : list (string * Z) :=
  [("thrifty", 18); ("standard", 35); ("comfort", 60)].

Definition accom_map : list (string * Z) :=
  [("budget", 15); ("mid", 35); ("premium", 80)].

Definition dest_adj : list (string * F64.float) :=
  [("city", F64.of_ratio 10 10); ("beach", F64.of_ratio 11 10);
   ("mountains", F64.of_ratio 9 10); ("rural", F64.of_ratio 8 10)].

Definition budget_suggestions : list string :=
  ["Book stays with kitchens to save on breakfasts.";
   "Use day passes for public transport.";
   "Travel mid-week to reduce fares."].

(** A [float] field of a pydantic model given an [int]: the value is
    converted, and a value out of range is refused. *)
Definition float_field (n : Z) : result F64.float :=
  let f := F64.of_Z n in
  if F64.is_finite f then ok f else raise ValidationError.

Local Open Scope result_scope.

(** The local [total] of [budget_calc], before it is rounded. *)
Definition budget_total (inp : BudgetInput) : result F64.float :=
  base <- dict_index base_rates (daily_style inp) ;;
  let adj := dict_get_default dest_adj (destination_type inp) (F64.of_ratio 10 10) in
  let daily_food := F64.mul (F64.of_Z base) adj in
  let daily_transport := F64.mul (F64.of_Z 8) adj in
  let daily_misc := 5 in
  let per_person_daily :=
    F64.add (F64.add daily_food daily_transport) (F64.of_Z daily_misc) in
  let accom_daily := dict_get_default accom_map (accommodation inp) 15 in
  t <- F64.int_to_float (travelers inp) ;;
  d <- F64.int_to_float (days inp) ;;
  ok (F64.mul (F64.add (F64.mul per_person_daily t) (F64.of_Z accom_daily)) d).

(** [budget_calc], statement by statement. *)
Definition budget_calc (inp : BudgetInput) : result BudgetOutput :=
  base <- dict_index base_rates (daily_style inp) ;;
  let adj := dict_get_default dest_adj (destination_type inp) (F64.of_ratio 10 10) in
  let daily_food := F64.mul (F64.of_Z base) adj in
  let daily_transport := F64.mul (F64.of_Z 8) adj in
  let daily_misc := 5 in
  let per_person_daily :=
    F64.add (F64.add daily_food daily_transport) (F64.of_Z daily_misc) in
  let accom_daily := dict_get_default accom_map (accommodation inp) 15 in
  t <- F64.int_to_float (travelers inp) ;;
  d <- F64.int_to_float (days inp) ;;
  let total := F64.mul (F64.add (F64.mul per_person_daily t) (F64.of_Z accom_daily)) d in
  let b_food := F64.round2 (F64.mul (F64.mul daily_food t) d) in
  let b_transport := F64.round2 (F64.mul (F64.mul daily_transport t) d) in
  let b_misc := daily_misc * travelers inp * days inp in
  let b_stay := accom_daily * days inp in
  dmax <- F64.int_to_float (Z.max (days inp) 1) ;;
  let r_total := F64.round2 total in
  let r_per_day := F64.round2 (F64.div total dmax) in
  f_misc <- float_field b_misc ;;
  f_stay <- float_field b_stay ;;
  ok {| total_estimate := r_total;
        per_day := r_per_day;
        breakdown := {| food := b_food; transport := b_transport;
                        misc := f_misc; stay := f_stay |};
        suggestions := budget_suggestions |}.

(** ** Documents and the store *)

(** [datetime] as microseconds since the epoch; [timedelta(days=n)]. *)
Definition datetime : Type := Z.
Definition timedelta_days (n : Z) : Z := n * 86400000000.

(** A stored user profile: the fields of [schemas.UserProfile].  A stored
    document is a dictionary, so [coins] may be absent; the handlers read it
    with [profile.get("coins", 0)]. *)
Module UserProfile.
Record t : Type := {
  user_id : string;
  name : option string;
  email : option string;
  language : string;
  coins : option Z;
  created_at : option datetime;
  updated_at : option datetime
}.

(** [UserProfile(user_id=user_id, coins=coins)], every other field at its
    default. *)
Definition make (uid : string) (c : Z) : t :=
  {| user_id := uid; name := None; email := None; language := "auto";
     coins := Some c; created_at := None; updated_at := None |}.

(** [profile.get("coins", 0)]. *)
Definition get_coins (p : t) : Z :=
  match coins p with
  | Some c => c
  | None => 0
  end.

(** The effect of [{"$set": {"coins": c, "updated_at": now}}] on one document. *)
Definition set_coins (c : Z) (now : datetime) (p : t) : t :=
  {| user_id := user_id p; name := name p; email := email p;
     language := language p; coins := Some c;
     created_at := created_at p; updated_at := Some now |}.
End UserProfile.

Module RewardLedger.
Record t : Type := {
  user_id : string;
  action : string;
  coins : Z;
  notes : option string;
  created_at : option datetime
}.
End RewardLedger.

Module PremiumPass.
Record t : Type := {
  user_id : string;
  feature : string;
  expires_at : datetime;
  created_at : option datetime
}.
End PremiumPass.

(** The collections the ledger handlers touch, each in insertion order. *)
Record Store : Type := {
  userprofile : list UserProfile.t;
  rewardledger : list RewardLedger.t;
  premiumpass : list PremiumPass.t
}.

Definition empty_store : Store :=
  {| userprofile := []; rewardledger := []; premiumpass := [] |}.

(** The system clock: [now_utc()] returns the next reading. *)
Record Clock : Type := {
  readings : nat -> datetime;
  ticks : nat
}.

(** The store handle [db] that the handlers import from the [database]
    module: [None] when no store is configured, and otherwise a handle whose
    truth test [bool(db)] either raises, as the one of pymongo's [Database]
    does, or answers true. *)
Inductive Handle : Type :=
  | NoHandle
  | Untestable
  | Testable.

(** The handle, what the store holds, and the clock. *)
Record World : Type := {
  handle : Handle;
  db : Store;
  clock : Clock
}.

(** A handler: it runs in a world, returns or raises, and leaves a world
    behind; what was written before an exception stays written. *)
Definition M (A : Type) : Type := World -> result A * World.

Definition ret {A} (a : A) : M A := fun w => (ok a, w).
Definition throw {A} (e : exn) : M A := fun w => (raise e, w).
Definition lift {A} (r : result A) : M A := fun w => (r, w).

Definition bind {A B} (m : M A) (k : A -> M B) : M B :=
  fun w =>
    match m w with
    | (inl e, w') => (inl e, w')
    | (inr a, w') => k a w'
    end.

Declare Scope handler_scope.
Delimit Scope handler_scope with handler.
Notation "x <- m ;; k" := (bind m (fun x => k))
  (at level 61, m at next level, right associativity) : handler_scope.
Notation "m ;;; k" := (bind m (fun _ => k))
  (at level 61, right associativity) : handler_scope.

Local Open Scope handler_scope.

(** The world after one more reading of the clock. *)
Definition tick (w : World) : World :=
  {| handle := handle w; db := db w;
     clock := {| readings := readings (clock w); ticks := S (ticks (clock w)) |} |}.

(** [now_utc()]. *)
Definition now_utc : M datetime :=
  fun w => (ok (readings (clock w) (ticks (clock w))), tick w).

(** The truth test of the handle, as in [... if db else None]: [None] is
    false, and a handle without a truth test raises. *)
Definition db_truth : M bool :=
  fun w =>
    match handle w with
    | NoHandle => (ok false, w)
    | Untestable => (raise NotImplementedError, w)
    | Testable => (ok true, w)
    end.

(** [db[COLLECTION]]: [None] cannot be subscripted. *)
Definition collection : M unit :=
  fun w =>
    match handle w with
    | NoHandle => (raise TypeError, w)
    | Untestable | Testable => (ok tt, w)
    end.

(** The first match of [{"user_id": uid}] in insertion order. *)
Fixpoint find_user (uid : string) (l : list UserProfile.t) : option UserProfile.t :=
  match l with
  | [] => None
  | p :: rest =>
      if String.eqb (UserProfile.user_id p) uid then Some p else find_user uid rest
  end.

(** [db[COLLECTION_USER].find_one({"user_id": user_id})]. *)
Definition find_one_user (uid : string) : M (option UserProfile.t) :=
  collection ;;;
  (fun w => (ok (find_user uid (userprofile (db w))), w)).

(** The store keeps an [int] in 8 bytes and refuses any other with
    [OverflowError], before anything is written. *)
Definition fits_int64 (z : Z) : bool := (- 2 ^ 63 <=? z) && (z <? 2 ^ 63).

(** The effect of [update_one({"user_id": uid}, {"$set": ...})] on the list
    of profiles: the first match is changed, and nothing happens without
    one. *)
Fixpoint update_user (uid : string) (f : UserProfile.t -> UserProfile.t)
    (l : list UserProfile.t) : list UserProfile.t :=
  match l with
  | [] => []
  | p :: rest =>
      if String.eqb (UserProfile.user_id p) uid then f p :: rest
      else p :: update_user uid f rest
  end.

(** [.update_one({"user_id": uid}, {"$set": {"coins": c, "updated_at": now}})]
    on the collection of profiles, once the collection and the arguments are
    evaluated. *)
Definition update_one_user (uid : string) (c : Z) (now : datetime) : M unit :=
  fun w =>
    if fits_int64 c then
      let s := db w in
      (ok tt,
       {| handle := handle w;
          db := {| userprofile := update_user uid (UserProfile.set_coins c now) (userprofile s);
                   rewardledger := rewardledger s;
                   premiumpass := premiumpass s |};
          clock := clock w |})
    else (raise OverflowError, w).

(** Modelled from the spec: [create_document] of the [database] module, which
    is not among the sources.  [createDocument(collectionName, record)] adds
    the record to the named collection, and fails with StoreUnavailable when
    there is no store; here one function per collection.  An [int] field is
    subject to the 8 bytes of the store. *)
Definition create_user_document (p : UserProfile.t) : M unit :=
  fun w =>
    match handle w with
    | NoHandle => (raise StoreUnavailable, w)
    | Untestable | Testable =>
        if fits_int64 (UserProfile.get_coins p) then
          let s := db w in
          (ok tt,
           {| handle := handle w;
              db := {| userprofile := userprofile s ++ [p];
                       rewardledger := rewardledger s;
                       premiumpass := premiumpass s |};
              clock := clock w |})
        else (raise OverflowError, w)
    end.

Definition create_reward_document (r : RewardLedger.t) : M unit :=
  fun w =>
    match handle w with
    | NoHandle => (raise StoreUnavailable, w)
    | Untestable | Testable =>
        if fits_int64 (RewardLedger.coins r) then
          let s := db w in
          (ok tt,
           {| handle := handle w;
              db := {| userprofile := userprofile s;
                       rewardledger := rewardledger s ++ [r];
                       premiumpass := premiumpass s |};
              clock := clock w |})
        else (raise OverflowError, w)
    end.

Definition create_pass_document (p : PremiumPass.t) : M unit :=
  fun w =>
    match handle w with
    | NoHandle => (raise StoreUnavailable, w)
    | Untestable | Testable =>
        let s := db w in
        (ok tt,
         {| handle := handle w;
            db := {| userprofile := userprofile s;
                     rewardledger := rewardledger s;
                     premiumpass := premiumpass s ++ [p] |};
            clock := clock w |})
    end.

(** ** The coin ledger *)

Definition WELCOME_COINS : Z := 10.

(** [ensure_user], statement by statement: the handle is tested before the
    lookup, a found profile is returned, and otherwise a profile with the
    welcome coins is stored and read back. *)
Definition ensure_user (uid : string) : M (option UserProfile.t) :=
  present <- db_truth ;;
  existing <- (if present then find_one_user uid else ret None) ;;
  match existing with
  | Some p => ret (Some p)
  | None =>
      let profile := UserProfile.make uid WELCOME_COINS in
      create_user_document profile ;;;
      find_one_user uid
  end.

(** [profile.get("coins", 0)] on what [ensure_user] returned; on [None] the
    method call raises. *)
Definition profile_coins (profile : option UserProfile.t) : M Z :=
  match profile with
  | Some p => ret (UserProfile.get_coins p)
  | None => throw AttributeError
  end.

(** [GET /api/coins/{user_id}]: the balance of a user. *)
Definition coins (uid : string) : M Z :=
  profile <- ensure_user uid ;;
  profile_coins profile.

Record RewardRequest : Type := {
  rw_user_id : string;
  rw_action : string;
  rw_coins : Z;
  rw_notes : option string
}.

(** The ledger entry built from the fields of the request. *)
Definition ledger_entry (req : RewardRequest) : RewardLedger.t :=
  {| RewardLedger.user_id := rw_user_id req;
     RewardLedger.action := rw_action req;
     RewardLedger.coins := rw_coins req;
     RewardLedger.notes := rw_notes req;
     RewardLedger.created_at := None |}.

(** [reward]: returns the new balance (the [coins] of the response).  The
    collection is subscripted and the clock is read before [update_one] is
    called. *)
Definition reward (req : RewardRequest) : M Z :=
  profile <- ensure_user (rw_user_id req) ;;
  bal <- profile_coins profile ;;
  let new_balance := bal + Z.max 0 (rw_coins req) in
  collection ;;;
  now <- now_utc ;;
  update_one_user (rw_user_id req) new_balance now ;;;
  create_reward_document (ledger_entry req) ;;;
  ret new_balance.

Record RedeemRequest : Type := {
  rd_user_id : string;
  rd_feature : string;
  rd_duration : string
}.

(** The two responses of [redeem]:
    [{"ok": False, "error": "Not enough coins"}] and
    [{"ok": True, "feature": ..., "expires_at": ...}]. *)
Inductive RedeemResponse : Type :=
  | NotEnoughCoins
  | Redeemed (feature : string) (expires_at : datetime).

Definition costs : list (string * Z) := [("1d", 10); ("7d", 50); ("30d", 150)].
Definition pass_days : list (string * Z) := [("1d", 1); ("7d", 7); ("30d", 30)].

(** [redeem], statement by statement. *)
Definition redeem (req : RedeemRequest) : M RedeemResponse :=
  days <- lift (dict_index pass_days (rd_duration req)) ;;
  profile <- ensure_user (rd_user_id req) ;;
  bal <- profile_coins profile ;;
  price <- lift (dict_index costs (rd_duration req)) ;;
  if bal <? price then ret NotEnoughCoins
  else
    collection ;;;
    now1 <- now_utc ;;
    update_one_user (rd_user_id req) (bal - price) now1 ;;;
    now2 <- now_utc ;;
    let pass_doc :=
      {| PremiumPass.user_id := rd_user_id req;
         PremiumPass.feature := rd_feature req;
         PremiumPass.expires_at := now2 + timedelta_days days;
         PremiumPass.created_at := None |} in
    create_pass_document pass_doc ;;;
    ret (Redeemed (rd_feature req) (PremiumPass.expires_at pass_doc)).

(** The duration classes as the specification lists them: the duration
    string, its price in coins and its validity in days. *)
Definition duration_classes : list (string * Z * Z) :=
  [("1d", 10, 1); ("7d", 50, 7); ("30d", 150, 30)].

(** The world after [p] is added to the profiles of [w]. *)
Definition profile_added (p : UserProfile.t) (w : World) : World :=
  {| handle := handle w;
     db := {| userprofile := userprofile (db w) ++ [p];
              rewardledger := rewardledger (db w);
              premiumpass := premiumpass (db w) |};
     clock := clock w |}.

(** The world after the balance of [uid] is set to [c] in [w1]: the clock is
    read once, for [updated_at]. *)
Definition balance_set (uid : string) (c : Z) (w1 : World) : World :=
  {| handle := handle w1;
     db :=
       {| userprofile :=
            update_user uid
              (UserProfile.set_coins c (readings (clock w1) (ticks (clock w1))))
              (userprofile (db w1));
          rewardledger := rewardledger (db w1);
          premiumpass := premiumpass (db w1) |};
     clock := clock (tick w1) |}.

(** The world [reward] leaves when it returns, started in [w1] (the world
    after [ensure_user]) with the new balance [c]. *)
Definition rewarded_world (req : RewardRequest) (w1 : World) (c : Z) : World :=
  let w2 := balance_set (rw_user_id req) c w1 in
  {| handle := handle w2;
     db :=
       {| userprofile := userprofile (db w2);
          rewardledger := rewardledger (db w2) ++ [ledger_entry req];
          premiumpass := premiumpass (db w2) |};
     clock := clock w2 |}.

(** The world [redeem] leaves after a successful redemption that started in
    [w1] (the world after [ensure_user]). *)
Definition redeemed_world (req : RedeemRequest) (w1 : World) (bal price ndays : Z) : World :=
  let w2 := balance_set (rd_user_id req) (bal - price) w1 in
  let now2 := readings (clock w2) (ticks (clock w2)) in
  {| handle := handle w2;
     db :=
       {| userprofile := userprofile (db w2);
          rewardledger := rewardledger (db w2);
          premiumpass :=
            premiumpass (db w2) ++
              [{| PremiumPass.user_id := rd_user_id req;
                  PremiumPass.feature := rd_feature req;
                  PremiumPass.expires_at := now2 + timedelta_days ndays;
                  PremiumPass.created_at := None |}] |};
     clock := clock (tick w2) |}.

(** ** Sequences of ledger operations *)

Inductive op : Type :=
  | EnsureUser (uid : string)
  | Reward (req : RewardRequest)
  | Redeem (req : RedeemRequest).

(** The world one operation leaves behind, whether it returned or raised. *)
Definition step (w : World) (o : op) : World :=
  match o with
  | EnsureUser uid => snd (ensure_user uid w)
  | Reward req => snd (reward req w)
  | Redeem req => snd (redeem req w)
  end.

Definition run (ops : list op) (w : World) : World := fold_left step ops w.

(** The empty store behind the handle [h]. *)
Definition initial_world (h : Handle) (c : Clock) : World :=
  {| handle := h; db := empty_store; clock := c |}.

(** Every stored profile carries a balance, and it is not negative. *)
Definition balance_ok (p : UserProfile.t) : Prop :=
  exists c, UserProfile.coins p = Some c /\ 0 <= c.

Definition balances_ok (w : World) : Prop :=
  Forall balance_ok (userprofile (db w)).

(** ** The budget formula as the specification words it *)

Module BudgetSpec.

Inductive Style : Type := Thrifty | Standard | Comfort.
Inductive Destination : Type := City | Beach | Mountains | Rural.
Inductive Tier : Type := Budget | Mid | Premium.

Definition style_name (s : Style) : string :=
  match s with
  | Thrifty => "thrifty" | Standard => "standard" | Comfort => "comfort"
  end.

Definition destination_name (d : Destination) : string :=
  match d with
  | City => "city" | Beach => "beach" | Mountains => "mountains" | Rural => "rural"
  end.

Definition tier_name (t : Tier) : string :=
  match t with
  | Budget => "budget" | Mid => "mid" | Premium => "premium"
  end.

Definition baseFood (s : Style) : Z :=
  match s with
  | Thrifty => 18 | Standard => 35 | Comfort => 60
  end.

Definition destMultiplier (d : Destination) : F64.float :=
  match d with
  | City => F64.of_ratio 10 10
  | Beach => F64.of_ratio 11 10
  | Mountains => F64.of_ratio 9 10
  | Rural => F64.of_ratio 8 10
  end.

Definition accomDaily (t : Tier) : Z :=
  match t with
  | Budget => 15 | Mid => 35 | Premium => 80
  end.

Definition dailyFood (s : Style) (d : Destination) : F64.float :=
  F64.mul (F64.of_Z (baseFood s)) (destMultiplier d).

Definition dailyTransport (d : Destination) : F64.float :=
  F64.mul (F64.of_Z 8) (destMultiplier d).

Definition dailyMisc : F64.float := F64.of_Z 5.

(** [(dailyFood + dailyTransport + dailyMisc) * travelers + accomDaily],
    all of it times [days]: the stay is counted once per day, not once per
    traveler. *)
Definition total (s : Style) (d : Destination) (t : Tier) (travelers days : Z) : F64.float :=
  F64.mul
    (F64.add
       (F64.mul (F64.add (F64.add (dailyFood s d) (dailyTransport d)) dailyMisc)
                (F64.of_Z travelers))
       (F64.of_Z (accomDaily t)))
    (F64.of_Z days).

Definition request (uid : string) (s : Style) (d : Destination) (t : Tier)
    (travelers days : Z) : BudgetInput :=
  {| bi_user_id := uid; days := days; travelers := travelers;
     destination_type := destination_name d;
     accommodation := tier_name t;
     daily_style := style_name s |}.

End BudgetSpec.



Definition with_days (d : Z) (inp : BudgetInput) : BudgetInput :=
  {| bi_user_id := bi_user_id inp; days := d; travelers := travelers inp;
     destination_type := destination_type inp; accommodation := accommodation inp;
     daily_style := daily_style inp |}.

(** The two messages the specification classifies. *)
Definition cheap_budget_destination : string := "What's a cheap budget destination".
Definition scared_safe_girls : string := "I'm scared, help me, is it safe for girls here".

(** A clock and small worlds on which the statements are run. *)
Definition sample_clock : Clock :=
  {| readings := fun n => 1762214400000000 + Z.of_nat n; ticks := 0 |}.

Definition world_with_balance (uid : string) (c : Z) : World :=
  {| handle := Testable;
     db := {| userprofile := [UserProfile.make uid c];
              rewardledger := []; premiumpass := [] |};
     clock := sample_clock |}.

(** The same store behind a handle whose truth test raises. *)
Definition untestable_world_with_balance (uid : string) (c : Z) : World :=
  {| handle := Untestable;
     db := {| userprofile := [UserProfile.make uid c];
              rewardledger := []; premiumpass := [] |};
     clock := sample_clock |}.

Definition redeem_request (uid duration : string) : RedeemRequest :=
  {| rd_user_id := uid; rd_feature := "offline_maps"; rd_duration := duration |}.

(** A budget request for the user "u1". *)
Definition budget_request (dest acc style : string) (travelers days : Z) : BudgetInput :=
  {| bi_user_id := "u1"; days := days; travelers := travelers;
     destination_type := dest; accommodation := acc; daily_style := style |}.

(** Whether the estimates for [d] and for [2 * d] days both return and the
    second [total_estimate] is [2 * ] the first. *)
Definition doubles_at (dest acc style : string) (t d : Z) : bool :=
  match budget_calc (budget_request dest acc style t d),
        budget_calc (budget_request dest acc style t (2 * d)) with
  | inr o1, inr o2 =>
      F64.same_finite (total_estimate o2) (F64.mul (F64.of_Z 2) (total_estimate o1))
  | _, _ => false
  end.

(** The known requests for up to [tmax] travelers and up to [dmax] days. *)
Definition doubles_up_to (tmax dmax : nat) : bool :=
  forallb (fun dest =>
    forallb (fun acc =>
      forallb (fun style =>
        forallb (fun t =>
          forallb (fun d => doubles_at dest acc style t d)
            (map Z.of_nat (seq 1 dmax)))
          (map Z.of_nat (seq 1 tmax)))
        ["thrifty"; "standard"; "comfort"])
      ["budget"; "mid"; "premium"])
    ["city"; "beach"; "mountains"; "rural"].

(** ** The response composer and translation *)

(** Strings hold the bytes of the UTF-8 text of the source. *)
Definition PROBLEM_KB : list (string * string) :=
  [("budget_low", "Try hostels, public buses/metros, cook sometimes, pick free walking tours, travel off-peak.");
   ("eat_safe", "Choose busy places with recent reviews, bottled water, avoid raw salads if unsure, prefer hot cooked food.");
   ("transport_best", "Short city hops: metro/bus. Intercity: train or budget coach. Late night: licensed cabs only.");
   ("girls_safety", "Stick to well-lit areas, share live location, avoid isolated spots late night, verify cabs, trust your instinct.");
   ("packing", "Layered clothes, power bank, universal adapter, basic meds, copies of IDs, padlock, quick-dry towel.");
   ("cost_reduce", "Travel off-season, fly mid-week, use passes, city cards, shared rides, cook breakfasts, compare across apps.");
   ("confusing_plan", "Group by region, reduce hotel hops, add buffer time, keep max 2-3 key activities per day.");
   ("hidden_places", "Ask locals, explore neighborhoods beyond the center, check community maps and Reddit threads.");
   ("lost_item", "Note location/time, contact venue/transport lost-and-found, file a police diary entry if needed, block cards.");
   ("scared", "Find a lit public place, call a trusted contact, share live location, approach staff/security, use emergency numbers.");
   ("adventures", "Look for guided hikes, cycling tours, river rafting (seasonal), zip-lines, local cooking or art workshops.")].

Module ChatResponse.
Record t : Type := {
  reply : string;
  followups : list string;
  tips : list string;
  locale : string
}.
End ChatResponse.

Definition reply_where_travel : string :=
  "Tell me your month, budget and vibe (beach/mountains/city). I’ll shortlist 3 destinations with pros/cons.".

Definition reply_general : string :=
  "I’ve got you. Share your city, dates and budget. I’ll suggest options, safety notes and a simple plan.".

Definition reply_general_hi : string :=
  "Bilkul! Apna budget, tareekh aur vibe batayein. Main aapko behtareen options, safety tips aur simple plan dunga/dungi.".

Definition reply_followups : list string :=
  ["What’s your budget range?"; "When are you traveling?"; "Solo or with friends/family?"].

Definition reply_tips : list string :=
  ["Keep digital + paper copies of IDs.";
   "Share your live location when traveling late.";
   "Avoid exchanging cash at airports; use ATMs or cards."].

Definition reply_tips_hi : list string :=
  ["ID ki digital aur paper copies rakhein.";
   "Late travel pe live location share karein.";
   "Airport par currency exchange mehenga ho sakta hai."].

(** [ai_reply(message, locale)]. *)
Definition ai_reply (message locale : string) : ChatResponse.t :=
  let intent := detect_intent message in
  let txt :=
    if String.eqb intent "where_travel" then reply_where_travel
    else match dict_get PROBLEM_KB intent with
         | Some v => v
         | None => reply_general
         end in
  let '(txt, tips) :=
    if String.prefix "hi" locale
    then (if String.eqb intent "general" then reply_general_hi else txt, reply_tips_hi)
    else (txt, reply_tips) in
  {| ChatResponse.reply := txt;
     ChatResponse.followups := reply_followups;
     ChatResponse.tips := tips;
     ChatResponse.locale := locale |}.

Module PyStr.

(** The ASCII characters [str.strip()] removes: 9 to 13 and 28 to 32.  The
    white space beyond ASCII that it removes too is not modelled, and the
    statements about stripped text are about ASCII text. *)
Definition is_space (c : ascii) : bool :=
  let n := nat_of_ascii c in
  ((9 <=? n)%nat && (n <=? 13)%nat) || ((28 <=? n)%nat && (n <=? 32)%nat).

Fixpoint lstrip (s : string) : string :=
  match s with
  | EmptyString => EmptyString
  | String c rest => if is_space c then lstrip rest else s
  end.

Fixpoint rstrip (s : string) : string :=
  match s with
  | EmptyString => EmptyString
  | String c rest =>
      match rstrip rest with
      | EmptyString => if is_space c then EmptyString else String c EmptyString
      | kept => String c kept
      end
  end.

(** [s.strip()]. *)
Definition strip (s : string) : string := rstrip (lstrip s).

(** [s.replace(old, new)] for a non-empty [old]: the occurrences of [old]
    are taken from the left and do not overlap; [skip] counts the characters
    of the occurrence just replaced that are still to be passed over. *)
Fixpoint replace_from (old new : string) (skip : nat) (s : string) : string :=
  match s with
  | EmptyString => EmptyString
  | String c rest =>
      match skip with
      | S k => replace_from old new k rest
      | O =>
          if String.prefix old s
          then new ++ replace_from old new (String.length old - 1) rest
          else String c (replace_from old new 0 rest)
      end
  end.

Definition replace (old new s : string) : string := replace_from old new 0 s.

End PyStr.

Record TranslateRequest : Type := {
  tr_text : string;
  tr_target : string
}.

(** [translate]: the [text] of the response. *)
Definition translate (req : TranslateRequest) : string :=
  let text := PyStr.strip (tr_text req) in
  if String.prefix "hi" (tr_target req) then "[HI] " ++ text
  else PyStr.replace " hai " " is " text.

(** ** Reading the ledger *)

(** The coins a user was credited with according to the reward ledger: the
    entries of the user, each floored at zero. *)
Fixpoint credited (uid : string) (l : list RewardLedger.t) : Z :=
  match l with
  | [] => 0
  | r :: rest =>
      (if String.eqb (RewardLedger.user_id r) uid
       then Z.max 0 (RewardLedger.coins r) else 0) + credited uid rest
  end.

(** The number of passes stored for a user. *)
Fixpoint passes_count (uid : string) (l : list PremiumPass.t) : Z :=
  match l with
  | [] => 0
  | p :: rest =>
      (if String.eqb (PremiumPass.user_id p) uid then 1 else 0) + passes_count uid rest
  end.

(** ** What the further properties speak about *)

(** The user an operation is about. *)
Definition op_user (o : op) : string :=
  match o with
  | EnsureUser uid => uid
  | Reward req => rw_user_id req
  | Redeem req => rd_user_id req
  end.

(** The user ids of the stored profiles, in insertion order. *)
Definition user_ids (w : World) : list string :=
  map UserProfile.user_id (userprofile (db w)).

(** What the ledger accounts for: a user without a profile has no pass and
    no credit, and the balance of a user with one, plus ten coins for each
    pass, is within the welcome coins plus the credits. *)
Definition accounted (w : World) : Prop :=
  forall uid,
    match find_user uid (userprofile (db w)) with
    | Some p =>
        UserProfile.get_coins p + 10 * passes_count uid (premiumpass (db w))
        <= WELCOME_COINS + credited uid (rewardledger (db w))
    | None =>
        passes_count uid (premiumpass (db w)) = 0
        /\ credited uid (rewardledger (db w)) = 0
    end.

(** A text that is empty or starts with a character that is not white space. *)
Definition starts_clean (s : string) : Prop :=
  match s with
  | EmptyString => True
  | String c _ => PyStr.is_space c = false
  end.

(** * Properties *)

(** ** Intent detection *)

(** C1 as stated fails: on "What's a cheap budget destination" the result is
    not [budget_low]. *)
Lemma detect_intent_cheap_budget_destination_not_budget_low :
  detect_intent cheap_budget_destination <> "budget_low".
Proof. vm_compute. discriminate. Qed.

(** C1, amended: on "What's a cheap budget destination" the destination rule,
    which is the first rule of [detect_intent], wins over the budget rule
    although the budget keywords match too, and the result is
    [where_travel]. *)
Theorem detect_intent_cheap_budget_destination :
  detect_intent cheap_budget_destination = "where_travel"
  /\ Str.any_in ["budget"; "low money"; "cheap"] (Str.lower cheap_budget_destination) = true
  /\ Str.any_in ["where should i travel"; "go where"; "destination"]
       (Str.lower cheap_budget_destination) = true.
Proof. repeat split; vm_compute; reflexivity. Qed.

(** C9: on "I'm scared, help me, is it safe for girls here" both the
    girls-safety rule and the scared rule match; the girls-safety rule comes
    first in [detect_intent], and the result is [girls_safety]. *)
Theorem detect_intent_scared_safe_girls :
  detect_intent scared_safe_girls = "girls_safety"
  /\ (Str.contains "safe" (Str.lower scared_safe_girls)
      && Str.any_in ["girl"; "women"; "female"] (Str.lower scared_safe_girls)) = true
  /\ Str.any_in ["scared"; "unsafe"; "help me"] (Str.lower scared_safe_girls) = true.
Proof. repeat split; vm_compute; reflexivity. Qed.

(** ** The coin ledger *)

Section Ledger.

Lemma find_user_app_new uid l p :
  find_user uid l = None ->
  UserProfile.user_id p = uid ->
  find_user uid (l ++ [p]) = Some p.
Proof.
  intros Hnone Hid. induction l as [|q l IH]; simpl in *.
  - rewrite Hid, String.eqb_refl. reflexivity.
  - destruct (String.eqb (UserProfile.user_id q) uid); [discriminate | auto].
Qed.

Lemma find_user_id uid l p :
  find_user uid l = Some p -> UserProfile.user_id p = uid.
Proof.
  induction l as [|q l IH]; simpl; [discriminate|].
  destruct (String.eqb (UserProfile.user_id q) uid) eqn:E.
  - intros [= <-]. now apply String.eqb_eq.
  - exact IH.
Qed.

Lemma find_user_update uid f l p :
  find_user uid l = Some p ->
  UserProfile.user_id (f p) = UserProfile.user_id p ->
  find_user uid (update_user uid f l) = Some (f p).
Proof.
  induction l as [|q l IH]; simpl; [discriminate|].
  destruct (String.eqb (UserProfile.user_id q) uid) eqn:E.
  - intros [= <-] Hid. simpl. rewrite Hid, E. reflexivity.
  - intros H Hid. simpl. rewrite E. auto.
Qed.

(** With a handle that tests true, a stored profile is returned and nothing
    is written. *)
Lemma ensure_user_found uid w p :
  handle w = Testable ->
  find_user uid (userprofile (db w)) = Some p ->
  ensure_user uid w = (ok (Some p), w).
Proof.
  intros Hh H. unfold ensure_user, bind, db_truth, find_one_user, collection, bind.
  rewrite Hh. cbn. rewrite Hh, H. reflexivity.
Qed.

(** With a handle that tests true and no stored profile, the welcome profile
    is stored and returned. *)
Lemma ensure_user_created uid w :
  handle w = Testable ->
  find_user uid (userprofile (db w)) = None ->
  ensure_user uid w =
    (ok (Some (UserProfile.make uid WELCOME_COINS)),
     profile_added (UserProfile.make uid WELCOME_COINS) w).
Proof.
  intros Hh H.
  unfold ensure_user, bind, db_truth, find_one_user, collection, bind,
    create_user_document.
  rewrite Hh. cbn. rewrite Hh, H. cbn. rewrite Hh. cbn.
  rewrite (find_user_app_new uid _ (UserProfile.make uid WELCOME_COINS) H eq_refl).
  unfold profile_added. rewrite Hh. reflexivity.
Qed.

(** Without a handle the lookup is skipped and the store refuses the new
    profile. *)
Lemma ensure_user_no_handle uid w :
  handle w = NoHandle -> ensure_user uid w = (raise StoreUnavailable, w).
Proof.
  intros Hh. unfold ensure_user, bind, db_truth, create_user_document.
  rewrite Hh. cbn. rewrite Hh. reflexivity.
Qed.

(** A handle without a truth test raises at the test. *)
Lemma ensure_user_untestable uid w :
  handle w = Untestable -> ensure_user uid w = (raise NotImplementedError, w).
Proof.
  intros Hh. unfold ensure_user, bind, db_truth. rewrite Hh. reflexivity.
Qed.

Lemma ensure_user_raises uid w :
  handle w <> Testable -> exists e, ensure_user uid w = (raise e, w).
Proof.
  intros Hh. destruct (handle w) eqn:E.
  - eexists. apply ensure_user_no_handle, E.
  - eexists. apply ensure_user_untestable, E.
  - congruence.
Qed.

(** With a handle that tests true [ensure_user] returns a profile, and that
    profile is the one stored under the user id afterwards. *)
Lemma ensure_user_returns uid w :
  handle w = Testable ->
  exists p,
    ensure_user uid w = (ok (Some p), snd (ensure_user uid w))
    /\ find_user uid (userprofile (db (snd (ensure_user uid w)))) = Some p
    /\ clock (snd (ensure_user uid w)) = clock w
    /\ rewardledger (db (snd (ensure_user uid w))) = rewardledger (db w)
    /\ premiumpass (db (snd (ensure_user uid w))) = premiumpass (db w)
    /\ handle (snd (ensure_user uid w)) = Testable.
Proof.
  intros Hh. destruct (find_user uid (userprofile (db w))) as [p|] eqn:E.
  - exists p. rewrite (ensure_user_found _ _ _ Hh E). cbn. auto 10.
  - exists (UserProfile.make uid WELCOME_COINS).
    rewrite (ensure_user_created _ _ Hh E). cbn.
    repeat split; auto.
    apply find_user_app_new; auto.
Qed.

(** [ensure_user] returns only behind a handle that tests true. *)
Lemma ensure_user_ok_inv {uid w r w1} :
  ensure_user uid w = (ok r, w1) -> handle w = Testable.
Proof.
  intros H. destruct (handle w) eqn:E; [| |reflexivity].
  - rewrite (ensure_user_no_handle _ _ E) in H. discriminate.
  - rewrite (ensure_user_untestable _ _ E) in H. discriminate.
Qed.

(** In every case the handle stays what it was. *)
Lemma ensure_user_handle uid w : handle (snd (ensure_user uid w)) = handle w.
Proof.
  destruct (handle w) eqn:E.
  - rewrite (ensure_user_no_handle _ _ E). exact E.
  - rewrite (ensure_user_untestable _ _ E). exact E.
  - destruct (ensure_user_returns uid w E) as (_ & _ & _ & _ & _ & _ & H).
    rewrite H. reflexivity.
Qed.

(** The balance route returns the stored balance and leaves the world that
    [ensure_user] leaves. *)
Lemma coins_inv uid w bal w1 :
  coins uid w = (ok bal, w1) ->
  handle w = Testable
  /\ w1 = snd (ensure_user uid w)
  /\ exists p, ensure_user uid w = (ok (Some p), w1)
               /\ find_user uid (userprofile (db w1)) = Some p
               /\ UserProfile.get_coins p = bal.
Proof.
  intros H.
  assert (Hh : handle w = Testable).
  { destruct (handle w) eqn:E; [| |reflexivity]; exfalso; unfold coins, bind in H.
    - rewrite (ensure_user_no_handle _ _ E) in H. discriminate.
    - rewrite (ensure_user_untestable _ _ E) in H. discriminate. }
  split; [exact Hh|].
  destruct (ensure_user_returns uid w Hh) as (p & He & Hf & _).
  unfold coins, bind in H. rewrite He in H. cbn in H.
  inversion H; subst. split; [reflexivity|].
  exists p. auto.
Qed.

Lemma coins_of_found uid w p :
  handle w = Testable ->
  find_user uid (userprofile (db w)) = Some p ->
  coins uid w = (ok (UserProfile.get_coins p), w).
Proof.
  intros Hh H. unfold coins, bind. rewrite (ensure_user_found _ _ _ Hh H). reflexivity.
Qed.

(** What [redeem] does once both table lookups and [ensure_user] are known:
    it refuses, or debits and writes the pass, or stops at a balance the
    store cannot hold. *)
Lemma redeem_run req w w1 p price ndays :
  dict_get pass_days (rd_duration req) = Some ndays ->
  dict_get costs (rd_duration req) = Some price ->
  ensure_user (rd_user_id req) w = (ok (Some p), w1) ->
  redeem req w =
    if UserProfile.get_coins p <? price then (ok NotEnoughCoins, w1)
    else if fits_int64 (UserProfile.get_coins p - price) then
      (ok (Redeemed (rd_feature req)
             (readings (clock w1) (S (ticks (clock w1))) + timedelta_days ndays)),
       redeemed_world req w1 (UserProfile.get_coins p) price ndays)
    else (raise OverflowError, tick w1).
Proof.
  intros Hd Hc He.
  assert (Hh1 : handle w1 = Testable).
  { pose proof (ensure_user_handle (rd_user_id req) w) as H.
    rewrite He, (ensure_user_ok_inv He) in H. exact H. }
  unfold redeem, bind, lift, dict_index. rewrite Hd, Hc, He.
  cbn -[Z.ltb Z.sub fits_int64]. destruct (UserProfile.get_coins p <? price); [reflexivity|].
  unfold collection, now_utc, update_one_user, create_pass_document.
  rewrite Hh1. cbn -[Z.sub fits_int64].
  destruct (fits_int64 (UserProfile.get_coins p - price)); [|reflexivity].
  cbn -[Z.sub]. rewrite Hh1. cbn -[Z.sub].
  unfold redeemed_world, balance_set, tick. cbn -[Z.sub]. rewrite ?Hh1. reflexivity.
Qed.

(** What [reward] does once [ensure_user] is known: it credits and logs, or
    stops at an amount the store cannot hold. *)
Lemma reward_run req w w1 p :
  ensure_user (rw_user_id req) w = (ok (Some p), w1) ->
  reward req w =
    if fits_int64 (UserProfile.get_coins p + Z.max 0 (rw_coins req)) then
      if fits_int64 (rw_coins req) then
        (ok (UserProfile.get_coins p + Z.max 0 (rw_coins req)),
         rewarded_world req w1 (UserProfile.get_coins p + Z.max 0 (rw_coins req)))
      else
        (raise OverflowError,
         balance_set (rw_user_id req) (UserProfile.get_coins p + Z.max 0 (rw_coins req)) w1)
    else (raise OverflowError, tick w1).
Proof.
  intros He.
  assert (Hh1 : handle w1 = Testable).
  { pose proof (ensure_user_handle (rw_user_id req) w) as H.
    rewrite He, (ensure_user_ok_inv He) in H. exact H. }
  unfold reward, bind. rewrite He.
  cbn -[Z.add Z.max fits_int64].
  unfold collection, now_utc, update_one_user, create_reward_document.
  rewrite Hh1. cbn -[Z.add Z.max fits_int64].
  destruct (fits_int64 (UserProfile.get_coins p + Z.max 0 (rw_coins req))); [|reflexivity].
  cbn -[Z.add Z.max fits_int64]. rewrite Hh1.
  unfold rewarded_world, balance_set, tick.
  destruct (fits_int64 (rw_coins req)); cbn -[Z.add Z.max]; rewrite ?Hh1; reflexivity.
Qed.

End Ledger.

Lemma dict_get_none {V} (d : list (string * V)) key :
  ~ In key (map fst d) -> dict_get d key = None.
Proof.
  induction d as [|[k v] d IH]; simpl; [reflexivity|].
  intros H. destruct (String.eqb k key) eqn:E.
  - apply String.eqb_eq in E. tauto.
  - apply IH. tauto.
Qed.

Lemma duration_class_lookup dur price ndays :
  In (dur, price, ndays) duration_classes ->
  dict_get pass_days dur = Some ndays /\ dict_get costs dur = Some price.
Proof.
  unfold duration_classes. simpl.
  intros [H|[H|[H|[]]]]; inversion H; subst; split; reflexivity.
Qed.

Lemma duration_lookups dur :
  In dur ["1d"; "7d"; "30d"] ->
  exists price nd,
    dict_get pass_days dur = Some nd /\ dict_get costs dur = Some price /\ 10 <= price
    /\ (dur <> "1d" -> 50 <= price).
Proof.
  cbn [In]. intros [<-|[<-|[<-|[]]]].
  - exists 10, 1. repeat split; try reflexivity; try lia. congruence.
  - exists 50, 7. repeat split; try reflexivity; lia.
  - exists 150, 30. repeat split; try reflexivity; lia.
Qed.

Lemma find_user_app_other other l p :
  UserProfile.user_id p <> other -> find_user other (l ++ [p]) = find_user other l.
Proof.
  intros H. induction l as [|q l IH]; simpl.
  - apply String.eqb_neq in H. rewrite H. reflexivity.
  - destruct (String.eqb (UserProfile.user_id q) other); [reflexivity | exact IH].
Qed.

(** An exception of [ensure_user] is the exception of the route. *)
Lemma redeem_raises req w e w1 ndays :
  dict_get pass_days (rd_duration req) = Some ndays ->
  ensure_user (rd_user_id req) w = (raise e, w1) ->
  redeem req w = (raise e, w1).
Proof.
  intros Hd He. unfold redeem, bind, lift, dict_index. rewrite Hd, He. reflexivity.
Qed.

Lemma reward_raises req w e w1 :
  ensure_user (rw_user_id req) w = (raise e, w1) ->
  reward req w = (raise e, w1).
Proof.
  intros He. unfold reward, bind. rewrite He. reflexivity.
Qed.

(** C10: a redeem call whose duration is none of "1d", "7d", "30d" raises
    at the table lookup, which comes before [ensure_user]: the world is left
    exactly as it was, so no profile is created, no balance changes and no
    pass is written. *)
Theorem redeem_unknown_duration (req : RedeemRequest) (w : World) :
  ~ In (rd_duration req) ["1d"; "7d"; "30d"] ->
  redeem req w = (raise (KeyError (rd_duration req)), w).
Proof.
  intros H. unfold redeem, bind, lift, dict_index.
  rewrite (dict_get_none pass_days _ H). reflexivity.
Qed.

Lemma redeem_unknown_duration_witness :
  redeem (redeem_request "u1" "2d") (world_with_balance "u1" 500)
  = (raise (KeyError "2d"), world_with_balance "u1" 500).
Proof.
  apply (redeem_unknown_duration (redeem_request "u1" "2d") (world_with_balance "u1" 500)).
  simpl. intros [H|[H|[H|[]]]]; discriminate H.
Defined.

(** C2 as stated fails: a refused redeem can change the state.  For a user
    the store does not know yet, the balance the coins route reads is the
    welcome 10; a redeem for "7d" (price 50) is refused, and the store, empty
    before, holds the user's new profile afterwards. *)
Lemma redeem_refused_stores_new_profile :
  fst (coins "ghost" (initial_world Testable sample_clock)) = ok 10
  /\ dict_get costs "7d" = Some 50
  /\ fst (redeem (redeem_request "ghost" "7d") (initial_world Testable sample_clock))
     = ok NotEnoughCoins
  /\ userprofile (db (initial_world Testable sample_clock)) = []
  /\ userprofile (db (snd (redeem (redeem_request "ghost" "7d")
                             (initial_world Testable sample_clock))))
     = [UserProfile.make "ghost" 10].
Proof. repeat split. Qed.

(** C2, amended: behind a store handle that tests true, when the balance of
    the user (as the coins route reads it) is below the price of the
    requested duration class, [redeem] returns the "Not enough coins"
    response (a value, not an exception); no pass and no ledger entry is
    written, the clock is not read, no other user's profile changes and the
    balance read afterwards is the same.  The world of a user who already
    had a profile is left exactly as it was; for a user without one the
    only write is the profile with the welcome coins that [ensure_user]
    stores. *)
Theorem redeem_insufficient_funds (req : RedeemRequest) (w w1 : World)
    (bal price ndays : Z) :
  handle w = Testable ->
  In (rd_duration req, price, ndays) duration_classes ->
  coins (rd_user_id req) w = (ok bal, w1) ->
  bal < price ->
  redeem req w = (ok NotEnoughCoins, w1)
  /\ premiumpass (db w1) = premiumpass (db w)
  /\ rewardledger (db w1) = rewardledger (db w)
  /\ clock w1 = clock w
  /\ coins (rd_user_id req) w1 = (ok bal, w1)
  /\ (forall other, other <> rd_user_id req ->
        find_user other (userprofile (db w1)) = find_user other (userprofile (db w)))
  /\ (forall p, find_user (rd_user_id req) (userprofile (db w)) = Some p -> w1 = w)
  /\ (find_user (rd_user_id req) (userprofile (db w)) = None ->
        bal = WELCOME_COINS
        /\ w1 = profile_added (UserProfile.make (rd_user_id req) WELCOME_COINS) w).
Proof.
  intros Hh Hcls Hbal Hlt.
  destruct (duration_class_lookup _ _ _ Hcls) as [Hd Hc].
  destruct (coins_inv _ _ _ _ Hbal) as (_ & Hw1 & p & He & Hf & Hp).
  destruct (ensure_user_returns (rd_user_id req) w Hh) as (_ & _ & _ & Hck & Hl & Hpass & Hh1).
  rewrite <- Hw1 in Hck, Hl, Hpass, Hh1.
  split.
  { rewrite (redeem_run _ _ _ _ _ _ Hd Hc He), Hp.
    replace (bal <? price) with true by (symmetry; apply Z.ltb_lt; exact Hlt).
    reflexivity. }
  split; [exact Hpass|]. split; [exact Hl|]. split; [exact Hck|].
  split; [rewrite (coins_of_found _ _ _ Hh1 Hf), Hp; reflexivity|].
  split.
  { intros other Hne.
    destruct (find_user (rd_user_id req) (userprofile (db w))) as [q|] eqn:E.
    - rewrite Hw1, (ensure_user_found _ _ _ Hh E). reflexivity.
    - rewrite Hw1, (ensure_user_created _ _ Hh E). cbn.
      apply find_user_app_other. cbn. congruence. }
  split.
  { intros q Hq. rewrite Hw1, (ensure_user_found _ _ _ Hh Hq). reflexivity. }
  intros Hnew. pose proof (ensure_user_created _ _ Hh Hnew) as Hcr.
  rewrite Hcr in He. inversion He; subst. split; reflexivity.
Qed.

Lemma redeem_insufficient_funds_witness :
  redeem (redeem_request "u1" "1d") (world_with_balance "u1" 5)
  = (ok NotEnoughCoins, world_with_balance "u1" 5)
  /\ coins "u1" (world_with_balance "u1" 5) = (ok 5, world_with_balance "u1" 5).
Proof.
  destruct (redeem_insufficient_funds (redeem_request "u1" "1d")
              (world_with_balance "u1" 5) (world_with_balance "u1" 5) 5 10 1)
    as (Hr & _ & _ & _ & Hc & _).
  - reflexivity.
  - simpl. left. reflexivity.
  - reflexivity.
  - lia.
  - split; [exact Hr | exact Hc].
Defined.

(** C5, where the code departs from it: [ensure_user] tests the handle with
    [if db], and a handle without a truth test raises there.  Behind such a
    handle every redeem call for a known duration raises NotImplementedError
    and leaves the store as it was, whatever the stored balance: nothing is
    debited and no pass is created.  [test_database] asks [db is not None]
    instead, which such a handle answers. *)
Theorem redeem_raises_on_untestable_handle (req : RedeemRequest) (w : World) :
  handle w = Untestable ->
  In (rd_duration req) ["1d"; "7d"; "30d"] ->
  redeem req w = (raise NotImplementedError, w).
Proof.
  intros Hh Hdur. destruct (duration_lookups _ Hdur) as (price & nd & Hd & _).
  apply (redeem_raises _ _ _ _ nd Hd), ensure_user_untestable, Hh.
Qed.

Lemma redeem_raises_on_untestable_handle_witness :
  find_user "u1" (userprofile (db (untestable_world_with_balance "u1" 20)))
  = Some (UserProfile.make "u1" 20)
  /\ redeem (redeem_request "u1" "1d") (untestable_world_with_balance "u1" 20)
     = (raise NotImplementedError, untestable_world_with_balance "u1" 20).
Proof.
  split; [reflexivity|].
  apply (redeem_raises_on_untestable_handle (redeem_request "u1" "1d")
           (untestable_world_with_balance "u1" 20)).
  - reflexivity.
  - simpl. auto.
Defined.

(** *** The balance never goes below zero *)

Lemma find_user_Forall (P : UserProfile.t -> Prop) uid l p :
  Forall P l -> find_user uid l = Some p -> P p.
Proof.
  induction 1 as [|q l Hq Hl IH]; simpl; [discriminate|].
  destruct (String.eqb (UserProfile.user_id q) uid).
  - intros [= <-]. exact Hq.
  - exact IH.
Qed.

Lemma update_user_Forall (P : UserProfile.t -> Prop) uid f l :
  Forall P l -> (forall p, P p -> P (f p)) -> Forall P (update_user uid f l).
Proof.
  intros Hl Hf. induction Hl as [|q l Hq Hl IH]; simpl; [constructor|].
  destruct (String.eqb (UserProfile.user_id q) uid); constructor; auto.
Qed.

Lemma set_coins_balance_ok c now p :
  0 <= c -> balance_ok (UserProfile.set_coins c now p).
Proof. intros H. exists c. split; [reflexivity | exact H]. Qed.

Lemma balance_ok_get_coins p : balance_ok p -> 0 <= UserProfile.get_coins p.
Proof.
  intros (c & Hc & Hle). unfold UserProfile.get_coins. rewrite Hc. exact Hle.
Qed.

(** [ensure_user] raises and writes nothing, or returns the profile that is
    stored afterwards behind a handle that tests true. *)
Lemma ensure_user_cases uid w :
  (exists e, ensure_user uid w = (raise e, w))
  \/ (exists p,
        ensure_user uid w = (ok (Some p), snd (ensure_user uid w))
        /\ find_user uid (userprofile (db (snd (ensure_user uid w)))) = Some p
        /\ handle w = Testable).
Proof.
  destruct (handle w) eqn:E.
  - left. apply ensure_user_raises. congruence.
  - left. apply ensure_user_raises. congruence.
  - right. destruct (ensure_user_returns uid w E) as (p & He & Hf & _).
    exists p. auto.
Qed.

Lemma ensure_user_balances_ok uid w :
  balances_ok w -> balances_ok (snd (ensure_user uid w)).
Proof.
  intros H. destruct (handle w) eqn:Hh.
  - rewrite (ensure_user_no_handle _ _ Hh). exact H.
  - rewrite (ensure_user_untestable _ _ Hh). exact H.
  - destruct (find_user uid (userprofile (db w))) as [p|] eqn:E.
    + rewrite (ensure_user_found _ _ _ Hh E). exact H.
    + rewrite (ensure_user_created _ _ Hh E). unfold balances_ok. cbn.
      apply Forall_app. split; [exact H|].
      constructor; [|constructor].
      exists WELCOME_COINS. split; [reflexivity | unfold WELCOME_COINS; lia].
Qed.

Lemma balance_set_balances_ok uid c w :
  0 <= c -> balances_ok w -> balances_ok (balance_set uid c w).
Proof.
  intros Hc H. unfold balances_ok, balance_set. cbn [db userprofile].
  apply update_user_Forall; [exact H|].
  intros q _. apply set_coins_balance_ok, Hc.
Qed.

Lemma reward_balances_ok req w :
  balances_ok w -> balances_ok (snd (reward req w)).
Proof.
  intros H.
  pose proof (ensure_user_balances_ok (rw_user_id req) w H) as H1.
  destruct (ensure_user_cases (rw_user_id req) w) as [(e & He)|(p & He & Hf & _)].
  - rewrite (reward_raises _ _ _ _ He). exact H.
  - rewrite (reward_run _ _ _ _ He).
    pose proof (balance_ok_get_coins p (find_user_Forall _ _ _ _ H1 Hf)) as Hp.
    destruct (fits_int64 _); [|exact H1].
    destruct (fits_int64 _); cbn [snd].
    + apply (balance_set_balances_ok (rw_user_id req)); [lia | exact H1].
    + apply balance_set_balances_ok; [lia | exact H1].
Qed.

Lemma redeem_balances_ok req w :
  balances_ok w -> balances_ok (snd (redeem req w)).
Proof.
  intros H.
  pose proof (ensure_user_balances_ok (rd_user_id req) w H) as H1.
  destruct (dict_get pass_days (rd_duration req)) as [nd|] eqn:Ed.
  2:{ unfold redeem, bind, lift, dict_index. rewrite Ed. exact H. }
  destruct (ensure_user_cases (rd_user_id req) w) as [(e & He)|(p & He & Hf & _)].
  - rewrite (redeem_raises _ _ _ _ _ Ed He). exact H.
  - destruct (dict_get costs (rd_duration req)) as [price|] eqn:Ec.
    2:{ unfold redeem, bind, lift, dict_index. rewrite Ed, He, Ec. exact H1. }
    rewrite (redeem_run _ _ _ _ _ _ Ed Ec He).
    destruct (UserProfile.get_coins p <? price) eqn:E; [exact H1|].
    apply Z.ltb_ge in E.
    destruct (fits_int64 _); [|exact H1].
    cbn [snd]. apply (balance_set_balances_ok (rd_user_id req)); [lia | exact H1].
Qed.

Lemma step_balances_ok w o : balances_ok w -> balances_ok (step w o).
Proof.
  destruct o; simpl.
  - apply ensure_user_balances_ok.
  - apply reward_balances_ok.
  - apply redeem_balances_ok.
Qed.

Lemma run_balances_ok ops : forall w, balances_ok w -> balances_ok (run ops w).
Proof.
  induction ops as [|o ops IH]; intros w H; simpl; [exact H|].
  apply IH, step_balances_ok, H.
Qed.

(** A profile is created with the welcome balance of 10. *)
Lemma ensure_user_welcome_coins uid w :
  handle w = Testable ->
  find_user uid (userprofile (db w)) = None ->
  fst (coins uid w) = ok 10.
Proof.
  intros Hh H. unfold coins, bind. rewrite (ensure_user_created _ _ Hh H). reflexivity.
Qed.

(** C4: starting from the empty store, behind any handle, after any
    sequence of [ensure_user], [reward] and [redeem] calls, whether they
    returned or raised, every stored profile carries a coin balance that is
    an integer not below zero. *)
Theorem coin_balance_never_negative (h : Handle) (c : Clock) (ops : list op) :
  balances_ok (run ops (initial_world h c)).
Proof.
  apply run_balances_ok. unfold balances_ok, initial_world. cbn. constructor.
Qed.

(** ** The float model on known values *)

(** The literal [1.1] is the binary64 value 0x1.199999999999ap+0. *)
Example literal_1_1 : F64.of_ratio 11 10 = S754_finite false 4953959590107546 (-52).
Proof. vm_compute. reflexivity. Qed.

(** [round(2.675, 2) == 2.67]: the float below the decimal rounds down. *)
Example round2_2_675 : F64.round2 (F64.of_ratio 2675 1000) = F64.of_ratio 267 100.
Proof. vm_compute. reflexivity. Qed.

(** [round(0.125, 2) == 0.12] and [round(0.375, 2) == 0.38]: exact ties go
    to the even digit. *)
Example round2_ties :
  F64.round2 (F64.of_ratio 125 1000) = F64.of_ratio 12 100
  /\ F64.round2 (F64.of_ratio 375 1000) = F64.of_ratio 38 100.
Proof. split; vm_compute; reflexivity. Qed.

(** [round(-0.001, 2)] is [-0.0], and infinities round to themselves. *)
Example round2_signed_zero_and_inf :
  F64.round2 (F64.of_ratio (-1) 1000) = S754_zero true
  /\ F64.round2 (S754_infinity false) = S754_infinity false.
Proof. split; vm_compute; reflexivity. Qed.

(** [float(2**1024 - 2**970 - 1)] is the largest float; from
    [2**1024 - 2**970] on the conversion overflows. *)
Example int_to_float_limit :
  F64.int_to_float (2 ^ 1024 - 2 ^ 970 - 1)
    = ok (S754_finite false 9007199254740991 971)
  /\ F64.int_to_float (2 ^ 1024 - 2 ^ 970) = raise OverflowError.
Proof. split; vm_compute; reflexivity. Qed.

(** ** Budget estimate *)

Section Budget.

Local Open Scope result_scope.

(** C8: for each of the 36 combinations of a known daily style, tier and
    destination type, the estimate for one traveler and one day returns, its
    five amounts are finite, and the exact sum of the four breakdown amounts
    is within half a cent of [total_estimate]. *)
Theorem breakdown_sums_to_total (uid style tier dest : string) :
  In style ["thrifty"; "standard"; "comfort"] ->
  In tier ["budget"; "mid"; "premium"] ->
  In dest ["city"; "beach"; "mountains"; "rural"] ->
  exists out,
    budget_calc {| bi_user_id := uid; days := 1; travelers := 1;
                   destination_type := dest; accommodation := tier;
                   daily_style := style |} = ok out
    /\ forallb F64.is_finite
         [food (breakdown out); transport (breakdown out); misc (breakdown out);
          stay (breakdown out); total_estimate out] = true
    /\ (Qabs (F64.to_Q (food (breakdown out)) + F64.to_Q (transport (breakdown out))
              + F64.to_Q (misc (breakdown out)) + F64.to_Q (stay (breakdown out))
              - F64.to_Q (total_estimate out)) <= 1 # 200)%Q.
Proof.
  simpl In.
  intros [<-|[<-|[<-|[]]]] [<-|[<-|[<-|[]]]] [<-|[<-|[<-|[<-|[]]]]];
    match goal with
    | |- exists out, ?b = ok out /\ _ =>
        let v := eval vm_compute in b in
        match v with
        | inr ?o =>
            exists o; split; [vm_compute; reflexivity|];
            split; [vm_compute; reflexivity|];
            apply Qle_bool_imp_le; vm_compute; reflexivity
        end
    end.
Qed.

Lemma breakdown_sums_to_total_witness :
  exists out,
    budget_calc (budget_request "beach" "premium" "standard" 1 1) = ok out
    /\ (Qabs (F64.to_Q (food (breakdown out)) + F64.to_Q (transport (breakdown out))
              + F64.to_Q (misc (breakdown out)) + F64.to_Q (stay (breakdown out))
              - F64.to_Q (total_estimate out)) <= 1 # 200)%Q.
Proof.
  destruct (breakdown_sums_to_total "u1" "standard" "premium" "beach")
    as (out & Hout & _ & Hsum).
  - simpl. auto.
  - simpl. auto.
  - simpl. auto.
  - exists out. split; [exact Hout | exact Hsum].
Defined.

Lemma base_rates_style s :
  dict_index base_rates (BudgetSpec.style_name s) = ok (BudgetSpec.baseFood s).
Proof. destruct s; reflexivity. Qed.

Lemma dest_adj_destination d x :
  dict_get_default dest_adj (BudgetSpec.destination_name d) x = BudgetSpec.destMultiplier d.
Proof. destruct d; reflexivity. Qed.

Lemma accom_map_tier t x :
  dict_get_default accom_map (BudgetSpec.tier_name t) x = BudgetSpec.accomDaily t.
Proof. destruct t; reflexivity. Qed.

Lemma int_to_float_finite n :
  F64.is_finite (F64.of_Z n) = true -> F64.int_to_float n = ok (F64.of_Z n).
Proof. intros H. unfold F64.int_to_float. rewrite H. reflexivity. Qed.

Lemma float_field_finite n :
  F64.is_finite (F64.of_Z n) = true -> float_field n = ok (F64.of_Z n).
Proof. intros H. unfold float_field. rewrite H. reflexivity. Qed.

(** C3 as stated fails: with 2^1024 travelers (and one day, city, budget,
    thrifty) the product [per_person_daily * travelers] raises
    [OverflowError], so no estimate is returned. *)
Lemma budget_calc_overflow_no_estimate :
  budget_calc (BudgetSpec.request "u1" BudgetSpec.Thrifty BudgetSpec.City
                 BudgetSpec.Budget (2 ^ 1024) 1) = raise OverflowError
  /\ ~ exists out,
         budget_calc (BudgetSpec.request "u1" BudgetSpec.Thrifty BudgetSpec.City
                        BudgetSpec.Budget (2 ^ 1024) 1) = ok out
         /\ total_estimate out =
              F64.round2 (BudgetSpec.total BudgetSpec.Thrifty BudgetSpec.City
                            BudgetSpec.Budget (2 ^ 1024) 1).
Proof.
  assert (H : budget_calc (BudgetSpec.request "u1" BudgetSpec.Thrifty BudgetSpec.City
                             BudgetSpec.Budget (2 ^ 1024) 1) = raise OverflowError)
    by (vm_compute; reflexivity).
  split; [exact H|].
  intros (out & Hout & _). rewrite H in Hout. discriminate Hout.
Qed.

(** C3, amended: for days >= 1 and travelers >= 1 that, like the products
    [5 * travelers * days] and [accomDaily * days], are within the range of
    binary64, and a known style, destination type and tier, [budget_calc]
    returns and its [total_estimate] is, rounded to two decimals,
    [((dailyFood + dailyTransport + dailyMisc) * travelers + accomDaily) * days]
    in binary64 arithmetic, with the tables of the specification; the stay is
    multiplied by the days and not by the travelers. *)
Theorem budget_total_estimate_formula (uid : string) (s : BudgetSpec.Style)
    (d : BudgetSpec.Destination) (t : BudgetSpec.Tier) (ntravelers ndays : Z) :
  1 <= ndays ->
  1 <= ntravelers ->
  F64.is_finite (F64.of_Z ntravelers) = true ->
  F64.is_finite (F64.of_Z ndays) = true ->
  F64.is_finite (F64.of_Z (5 * ntravelers * ndays)) = true ->
  F64.is_finite (F64.of_Z (BudgetSpec.accomDaily t * ndays)) = true ->
  exists out,
    budget_calc (BudgetSpec.request uid s d t ntravelers ndays) = ok out
    /\ total_estimate out = F64.round2 (BudgetSpec.total s d t ntravelers ndays).
Proof.
  intros Hd Ht Hft Hfd Hfm Hfs.
  unfold budget_calc, BudgetSpec.request.
  cbn [daily_style destination_type accommodation days travelers].
  rewrite base_rates_style, dest_adj_destination, accom_map_tier.
  replace (Z.max ndays 1) with ndays by lia.
  rewrite (int_to_float_finite _ Hft), (int_to_float_finite _ Hfd).
  rewrite (float_field_finite _ Hfm), (float_field_finite _ Hfs).
  cbn [rbind ok]. eexists. split; [reflexivity|]. reflexivity.
Qed.

Lemma budget_total_estimate_formula_witness :
  exists out,
    budget_calc (BudgetSpec.request "u1" BudgetSpec.Standard BudgetSpec.Beach
                   BudgetSpec.Mid 2 3) = ok out
    /\ total_estimate out =
         F64.round2 (BudgetSpec.total BudgetSpec.Standard BudgetSpec.Beach
                       BudgetSpec.Mid 2 3).
Proof.
  apply (budget_total_estimate_formula "u1" BudgetSpec.Standard BudgetSpec.Beach
           BudgetSpec.Mid 2 3); try lia; vm_compute; reflexivity.
Defined.

End Budget.

(** ** Rounding to binary64 *)

(** Facts about the rounding of [SpecFloat] at [prec = 53], [emax = 1024]:
    where the leading bit of a rounded result lies, and that doubling the
    input doubles the result. *)
Module Rounding.

Lemma digits2_pos_size p : digits2_pos p = Pos.size p.
Proof. induction p; simpl; congruence. Qed.

Lemma Zdigits2_log2 m : 0 < m -> Zdigits2 m = Z.log2 m + 1.
Proof.
  destruct m as [|p|p]; try lia. intros _. simpl.
  destruct p; simpl; rewrite ?digits2_pos_size; lia.
Qed.

Lemma Zdigits2_nonneg m : 0 <= Zdigits2 m.
Proof. destruct m; simpl; lia. Qed.

Lemma Zdigits2_pos m : 0 < m -> 1 <= Zdigits2 m.
Proof. intros H. rewrite Zdigits2_log2 by lia. pose proof (Z.log2_nonneg m). lia. Qed.

Lemma Zdigits2_le a b : 0 < a -> a <= b -> Zdigits2 a <= Zdigits2 b.
Proof.
  intros Ha Hab. rewrite !Zdigits2_log2 by lia.
  pose proof (Z.log2_le_mono a b Hab). lia.
Qed.

Lemma Zdigits2_mul a b :
  0 < a -> 0 < b -> Zdigits2 a + Zdigits2 b - 1 <= Zdigits2 (a * b).
Proof.
  intros Ha Hb. rewrite !Zdigits2_log2 by nia.
  pose proof (Z.log2_mul_below a b Ha Hb). lia.
Qed.

Lemma Zdigits2_spec m : 0 < m -> 2 ^ (Zdigits2 m - 1) <= m < 2 ^ Zdigits2 m.
Proof.
  intros H. rewrite Zdigits2_log2 by lia.
  replace (Z.log2 m + 1 - 1) with (Z.log2 m) by lia.
  replace (Z.log2 m + 1) with (Z.succ (Z.log2 m)) by lia.
  apply Z.log2_spec, H.
Qed.

Lemma Zdigits2_unique m k : 1 <= k -> 2 ^ (k - 1) <= m < 2 ^ k -> Zdigits2 m = k.
Proof.
  intros Hk [Hlo Hhi].
  assert (0 < m) by (pose proof (Z.pow_pos_nonneg 2 (k - 1)); lia).
  rewrite Zdigits2_log2 by lia.
  rewrite (Z.log2_unique m (k - 1)); [lia | lia |].
  replace (Z.succ (k - 1)) with k by lia. split; assumption.
Qed.

Lemma Zdigits2_mul_pow2 a n : 0 < a -> 0 <= n -> Zdigits2 (a * 2 ^ n) = Zdigits2 a + n.
Proof.
  intros Ha Hn. pose proof (Zdigits2_spec a Ha) as [Hlo Hhi].
  pose proof (Zdigits2_pos a Ha).
  assert (0 < 2 ^ n) by (apply Z.pow_pos_nonneg; lia).
  apply Zdigits2_unique; [lia|].
  replace (Zdigits2 a + n - 1) with (Zdigits2 a - 1 + n) by lia.
  rewrite !Z.pow_add_r by lia. nia.
Qed.

Lemma Zdigits2_div_pow2 a n :
  0 < a -> 0 <= n -> n < Zdigits2 a ->
  0 < a / 2 ^ n /\ Zdigits2 (a / 2 ^ n) = Zdigits2 a - n.
Proof.
  intros Ha Hn Hlt. pose proof (Zdigits2_spec a Ha) as [Hlo Hhi].
  assert (Hp : 0 < 2 ^ n) by (apply Z.pow_pos_nonneg; lia).
  assert (Hlo' : 2 ^ (Zdigits2 a - n - 1) <= a / 2 ^ n).
  { apply Z.div_le_lower_bound; [lia|].
    rewrite <- Z.pow_add_r by lia.
    replace (n + (Zdigits2 a - n - 1)) with (Zdigits2 a - 1) by lia. exact Hlo. }
  assert (Hhi' : a / 2 ^ n < 2 ^ (Zdigits2 a - n)).
  { apply Z.div_lt_upper_bound; [lia|].
    rewrite <- Z.pow_add_r by lia.
    replace (n + (Zdigits2 a - n)) with (Zdigits2 a) by lia. exact Hhi. }
  assert (0 < 2 ^ (Zdigits2 a - n - 1)) by (apply Z.pow_pos_nonneg; lia).
  split; [lia|]. apply Zdigits2_unique; [lia|]. split; assumption.
Qed.


(** Shifting right. *)

Lemma iter_pos_Pos_iter {A} (f : A -> A) p : forall x, iter_pos f p x = Pos.iter f x p.
Proof.
  induction p as [p IH|p IH|]; intros x; simpl.
  - rewrite !IH, !Pos.iter_swap. reflexivity.
  - rewrite !IH. reflexivity.
  - reflexivity.
Qed.

Lemma shr_1_m r : 0 <= shr_m r -> shr_m (shr_1 r) = shr_m r / 2.
Proof.
  destruct r as [m rb sb]. simpl. destruct m as [|p|p]; [reflexivity| |lia].
  intros _. destruct p as [p|p|]; simpl.
  - rewrite Pos2Z.inj_xI. apply (Z.div_unique _ _ _ 1); lia.
  - rewrite Pos2Z.inj_xO. apply (Z.div_unique _ _ _ 0); lia.
  - reflexivity.
Qed.

Lemma shr_iter_m p r :
  0 <= shr_m r -> shr_m (iter_pos shr_1 p r) = shr_m r / 2 ^ Zpos p.
Proof.
  intros Hr. rewrite iter_pos_Pos_iter.
  induction p as [|p IH] using Pos.peano_ind.
  - simpl. rewrite shr_1_m by exact Hr. reflexivity.
  - rewrite Pos.iter_succ, shr_1_m.
    + rewrite IH, Pos2Z.inj_succ, Z.pow_succ_r by lia.
      rewrite Z.div_div by (try apply Z.pow_pos_nonneg; lia).
      f_equal. lia.
    + rewrite IH. apply Z.div_pos; [exact Hr | apply Z.pow_pos_nonneg; lia].
Qed.

Lemma shr_record_of_loc_m m l : shr_m (shr_record_of_loc m l) = m.
Proof. destruct l as [|[]]; reflexivity. Qed.

Lemma round_nearest_even_bounds m l :
  m <= round_nearest_even m l <= m + 1.
Proof.
  destruct l as [|[]]; simpl; try lia. destruct (Z.even m); lia.
Qed.

Lemma fexp_eq e : fexp F64.prec F64.emax e = Z.max (e - 53) (-1074).
Proof. reflexivity. Qed.

(** What one alignment step does to a positive mantissa: the exponent lands
    on or above [fexp], and the position of the leading bit is kept unless
    every bit is shifted out. *)
Lemma shr_fexp_spec m e l :
  0 <= m ->
  snd (shr_fexp F64.prec F64.emax m e l)
    = Z.max e (fexp F64.prec F64.emax (Zdigits2 m + e))
  /\ shr_m (fst (shr_fexp F64.prec F64.emax m e l))
     = m / 2 ^ Z.max 0 (fexp F64.prec F64.emax (Zdigits2 m + e) - e).
Proof.
  intros Hm. unfold shr_fexp, shr.
  set (F := fexp F64.prec F64.emax (Zdigits2 m + e)).
  destruct (F - e) as [|p|p] eqn:En; simpl fst; simpl snd.
  - rewrite shr_record_of_loc_m. simpl. rewrite Z.div_1_r. split; lia.
  - rewrite shr_iter_m by (rewrite shr_record_of_loc_m; lia).
    rewrite shr_record_of_loc_m. split; [lia|reflexivity].
  - rewrite shr_record_of_loc_m. simpl. rewrite Z.div_1_r. split; lia.
Qed.


Lemma shr_fexp_keeps_magnitude m e l :
  0 < m -> -1074 <= e ->
  0 < shr_m (fst (shr_fexp F64.prec F64.emax m e l))
  /\ Zdigits2 (shr_m (fst (shr_fexp F64.prec F64.emax m e l)))
       + snd (shr_fexp F64.prec F64.emax m e l) = Zdigits2 m + e
  /\ -1074 <= snd (shr_fexp F64.prec F64.emax m e l).
Proof.
  intros Hm He. destruct (shr_fexp_spec m e l ltac:(lia)) as [Hs Hr].
  rewrite Hs, Hr, fexp_eq. clear Hs Hr.
  pose proof (Zdigits2_pos m Hm) as Hd.
  destruct (Z_le_gt_dec (Zdigits2 m + e - 53) e) as [Hle|Hgt].
  - replace (Z.max 0 (Z.max (Zdigits2 m + e - 53) (-1074) - e)) with 0 by lia.
    simpl. rewrite Z.div_1_r. repeat split; lia.
  - replace (Z.max (Zdigits2 m + e - 53) (-1074)) with (Zdigits2 m + e - 53) by lia.
    replace (Z.max 0 (Zdigits2 m + e - 53 - e)) with (Zdigits2 m - 53) by lia.
    destruct (Zdigits2_div_pow2 m (Zdigits2 m - 53) Hm ltac:(lia) ltac:(lia))
      as [Hp Hdig].
    rewrite Hdig. repeat split; lia.
Qed.

Lemma shr_fexp_first m e l l' :
  0 < m ->
  let out := shr_fexp F64.prec F64.emax m e l in
  let m1 := round_nearest_even (shr_m (fst out)) l' in
  -1074 <= snd out
  /\ 0 <= m1
  /\ (0 < m1 -> Zdigits2 m + e <= Zdigits2 m1 + snd out)
  /\ (-1074 <= Zdigits2 m + e - 53 -> 0 < m1).
Proof.
  intros Hm out m1.
  destruct (shr_fexp_spec m e l ltac:(lia)) as [Hs Hr]. fold out in Hs, Hr.
  pose proof (round_nearest_even_bounds (shr_m (fst out)) l') as Hb. fold m1 in Hb.
  pose proof (Zdigits2_pos m Hm) as Hd.
  rewrite fexp_eq in Hs, Hr. rewrite Hs.
  set (n := Z.max (Zdigits2 m + e - 53) (-1074) - e) in *.
  assert (H2 : 0 < 2 ^ Z.max 0 n) by (apply Z.pow_pos_nonneg; lia).
  assert (Hq : 0 <= shr_m (fst out)) by (rewrite Hr; apply Z.div_pos; lia).
  destruct (Z_le_gt_dec n 0) as [Hn|Hn].
  - replace (Z.max 0 n) with 0 in Hr by lia. simpl in Hr. rewrite Z.div_1_r in Hr.
    pose proof (Zdigits2_le m m1 Hm ltac:(lia)). repeat split; lia.
  - replace (Z.max 0 n) with n in Hr by lia.
    destruct (Z_lt_ge_dec n (Zdigits2 m)) as [Hlt|Hge].
    + destruct (Zdigits2_div_pow2 m n Hm ltac:(lia) Hlt) as [Hp Hdig].
      rewrite <- Hr in Hp, Hdig.
      pose proof (Zdigits2_le (shr_m (fst out)) m1 Hp ltac:(lia)).
      repeat split; lia.
    + repeat split; try lia.
      intros H1. pose proof (Zdigits2_pos m1 H1). lia.
Qed.

Lemma binary_round_aux_eq s mx ex lx :
  binary_round_aux F64.prec F64.emax s mx ex lx =
    let o1 := shr_fexp F64.prec F64.emax mx ex lx in
    let m1 := round_nearest_even (shr_m (fst o1)) (loc_of_shr_record (fst o1)) in
    let o2 := shr_fexp F64.prec F64.emax m1 (snd o1) loc_Exact in
    match shr_m (fst o2) with
    | Z0 => S754_zero s
    | Zpos m =>
        if snd o2 <=? F64.emax - F64.prec then S754_finite s m (snd o2)
        else S754_infinity s
    | Zneg _ => S754_nan
    end.
Proof.
  unfold binary_round_aux.
  destruct (shr_fexp F64.prec F64.emax mx ex lx) as [r1 e1]. cbn [fst snd].
  destruct (shr_fexp F64.prec F64.emax _ e1 loc_Exact) as [r2 e2]. reflexivity.
Qed.

(** A finite result of rounding keeps the sign, has its exponent at or above
    the least one, and its leading bit is not below that of the input. *)
Lemma binary_round_aux_finite s mx ex lx s' m e :
  0 < mx ->
  binary_round_aux F64.prec F64.emax s mx ex lx = S754_finite s' m e ->
  s' = s /\ -1074 <= e /\ Zdigits2 mx + ex <= Zdigits2 (Zpos m) + e.
Proof.
  intros Hm. rewrite binary_round_aux_eq. cbv zeta.
  pose proof (shr_fexp_first mx ex lx
                (loc_of_shr_record (fst (shr_fexp F64.prec F64.emax mx ex lx))) Hm) as H.
  cbv zeta in H.
  set (o1 := shr_fexp F64.prec F64.emax mx ex lx) in *.
  set (m1 := round_nearest_even (shr_m (fst o1)) (loc_of_shr_record (fst o1))) in *.
  destruct H as (He1 & Hm1 & Hmag & _).
  destruct (Z.eq_dec m1 0) as [Hz|Hnz].
  - destruct (shr_fexp_spec m1 (snd o1) loc_Exact ltac:(lia)) as [_ Hr].
    rewrite Hr, Hz, Z.div_0_l
      by (apply Z.pow_nonzero; [discriminate | apply Z.le_max_l]).
    discriminate.
  - destruct (shr_fexp_keeps_magnitude m1 (snd o1) loc_Exact ltac:(lia) He1)
      as (Hp & Hdig & He2).
    set (o2 := shr_fexp F64.prec F64.emax m1 (snd o1) loc_Exact) in *.
    destruct (shr_m (fst o2)) as [|q|q] eqn:Eq; try discriminate.
    destruct (snd o2 <=? F64.emax - F64.prec); [|discriminate].
    intros [= <- <- <-]. repeat split; lia.
Qed.


(** *** Doubling commutes with rounding *)

Lemma shr_fexp_succ_exp m e l :
  -1074 <= Zdigits2 m + e - 53 ->
  shr_fexp F64.prec F64.emax m (e + 1) l
  = (fst (shr_fexp F64.prec F64.emax m e l), snd (shr_fexp F64.prec F64.emax m e l) + 1).
Proof.
  intros Hn. unfold shr_fexp. rewrite !fexp_eq.
  replace (Z.max (Zdigits2 m + (e + 1) - 53) (-1074) - (e + 1))
    with (Z.max (Zdigits2 m + e - 53) (-1074) - e) by lia.
  unfold shr. destruct (Z.max (Zdigits2 m + e - 53) (-1074) - e); cbn [fst snd];
    f_equal; lia.
Qed.

Lemma binary_round_aux_twice s mx ex lx :
  0 < mx ->
  -1074 <= Zdigits2 mx + ex - 53 ->
  F64.is_finite (binary_round_aux F64.prec F64.emax s mx (ex + 1) lx) = true ->
  binary_round_aux F64.prec F64.emax s mx (ex + 1) lx
  = F64.twice (binary_round_aux F64.prec F64.emax s mx ex lx).
Proof.
  intros Hm Hn. rewrite !binary_round_aux_eq. cbv zeta.
  rewrite (shr_fexp_succ_exp mx ex lx Hn). cbn [fst snd].
  pose proof (shr_fexp_first mx ex lx
                (loc_of_shr_record (fst (shr_fexp F64.prec F64.emax mx ex lx))) Hm) as H.
  cbv zeta in H.
  set (o1 := shr_fexp F64.prec F64.emax mx ex lx) in *.
  set (m1 := round_nearest_even (shr_m (fst o1)) (loc_of_shr_record (fst o1))) in *.
  destruct H as (He1 & Hm1 & Hmag & Hpos).
  specialize (Hpos Hn). specialize (Hmag Hpos).
  rewrite (shr_fexp_succ_exp m1 (snd o1) loc_Exact) by lia. cbn [fst snd].
  set (o2 := shr_fexp F64.prec F64.emax m1 (snd o1) loc_Exact).
  destruct (shr_m (fst o2)) as [|q|q]; try reflexivity.
  destruct (snd o2 + 1 <=? F64.emax - F64.prec) eqn:E; [|discriminate].
  intros _. apply Z.leb_le in E.
  replace (snd o2 <=? F64.emax - F64.prec) with true by (symmetry; apply Z.leb_le; lia).
  reflexivity.
Qed.

(** Aligning a mantissa to a smaller exponent. *)

Lemma iter_xO_pow2 m d : Zpos (Pos.iter xO m d) = Zpos m * 2 ^ Zpos d.
Proof.
  induction d as [|d IH] using Pos.peano_ind.
  - simpl. lia.
  - rewrite Pos.iter_succ, Pos2Z.inj_xO, IH, Pos2Z.inj_succ, Z.pow_succ_r by lia. lia.
Qed.

Lemma shl_align_magnitude m e e' :
  Zdigits2 (Zpos (fst (shl_align m e e'))) + snd (shl_align m e e') = Zdigits2 (Zpos m) + e
  /\ snd (shl_align m e e') = Z.min e e'.
Proof.
  unfold shl_align. destruct (e' - e) as [|p|p] eqn:E; cbn [fst snd]; try (split; lia).
  rewrite iter_xO_pow2, Zdigits2_mul_pow2 by lia. split; lia.
Qed.

Lemma binary_round_eq s m e :
  binary_round F64.prec F64.emax s m e =
    let a := shl_align m e (fexp F64.prec F64.emax (Zpos (digits2_pos m) + e)) in
    binary_round_aux F64.prec F64.emax s (Zpos (fst a)) (snd a) loc_Exact.
Proof.
  unfold binary_round. destruct (shl_align m e _). reflexivity.
Qed.

Lemma binary_round_finite s m e s' m' e' :
  binary_round F64.prec F64.emax s m e = S754_finite s' m' e' ->
  s' = s /\ -1074 <= e' /\ Zdigits2 (Zpos m) + e <= Zdigits2 (Zpos m') + e'.
Proof.
  rewrite binary_round_eq. cbv zeta. intros H.
  apply binary_round_aux_finite in H; [|lia].
  destruct (shl_align_magnitude m e (fexp F64.prec F64.emax (Zpos (digits2_pos m) + e)))
    as [Hmag _].
  cbn [Zdigits2] in *. destruct H as (Hs & He & Hd). repeat split; [exact Hs|lia|lia].
Qed.

Lemma binary_round_twice s m e :
  -1074 <= Zdigits2 (Zpos m) + e - 53 ->
  F64.is_finite (binary_round F64.prec F64.emax s m (e + 1)) = true ->
  binary_round F64.prec F64.emax s m (e + 1)
  = F64.twice (binary_round F64.prec F64.emax s m e).
Proof.
  intros Hn. rewrite !binary_round_eq. cbv zeta.
  change (Z.pos (digits2_pos m)) with (Zdigits2 (Z.pos m)).
  rewrite !fexp_eq.
  replace (Z.max (Zdigits2 (Z.pos m) + (e + 1) - 53) (-1074))
    with (Z.max (Zdigits2 (Z.pos m) + e - 53) (-1074) + 1) by lia.
  set (F := Z.max (Zdigits2 (Z.pos m) + e - 53) (-1074)).
  destruct (shl_align_magnitude m e F) as [Hmag _].
  assert (Ha : shl_align m (e + 1) (F + 1) = (fst (shl_align m e F), snd (shl_align m e F) + 1)).
  { unfold shl_align. replace (F + 1 - (e + 1)) with (F - e) by lia.
    destruct (F - e); cbn [fst snd]; f_equal; lia. }
  rewrite Ha. cbn [fst snd].
  apply binary_round_aux_twice; lia.
Qed.

Lemma binary_round_xO s m e :
  binary_round F64.prec F64.emax s (m~0) e = binary_round F64.prec F64.emax s m (e + 1).
Proof.
  rewrite !binary_round_eq. cbv zeta.
  replace (Z.pos (digits2_pos m~0) + e) with (Z.pos (digits2_pos m) + (e + 1))
    by (cbn [digits2_pos]; rewrite Pos2Z.inj_succ; lia).
  set (F := fexp F64.prec F64.emax (Z.pos (digits2_pos m) + (e + 1))).
  unfold shl_align.
  destruct (F - e) as [|p|p] eqn:E.
  - replace (F - (e + 1)) with (Zneg 1) by lia. cbn [fst snd Pos.iter].
    replace F with e by lia. reflexivity. 
  - (* the rounding itself drops the added zero bit *)
    cbn [fst snd]. rewrite !binary_round_aux_eq. cbv zeta.
    assert (Hs : shr_fexp F64.prec F64.emax (Z.pos m~0) e loc_Exact
                 = shr_fexp F64.prec F64.emax (Z.pos m) (e + 1) loc_Exact).
    { unfold shr_fexp. simpl Zdigits2.
      replace (Z.pos (Pos.succ (digits2_pos m)) + e)
        with (Z.pos (digits2_pos m) + (e + 1)) by (rewrite Pos2Z.inj_succ; lia).
      fold F. rewrite E. unfold shr.
      destruct (Pos.eq_dec p 1) as [->|Hp].
      - replace (F - (e + 1)) with 0 by lia. reflexivity.
      - replace (F - (e + 1)) with (Zpos (Pos.pred p)) by lia.
        f_equal; [|lia].
        rewrite !iter_pos_Pos_iter.
        rewrite <- (Pos.succ_pred p Hp) at 1.
        rewrite Pos.iter_succ_r. reflexivity. }
    replace (F - (e + 1)) with (Z.pred (Zpos p)) by lia.
    destruct (Z.pred (Z.pos p)) eqn:Ep; try lia; cbn [fst snd]; rewrite Hs; reflexivity.
  - replace (F - (e + 1)) with (Zneg (Pos.succ p)) by lia. cbn [fst snd].
    rewrite Pos.iter_succ_r. reflexivity.
Qed.

End Rounding.

(** ** Doubling the days of a budget request *)

Module Doubling.
Import Rounding.

Lemma to_Q_twice s m e :
  (F64.to_Q (F64.twice (S754_finite s m e)) == 2 * F64.to_Q (S754_finite s m e))%Q.
Proof.
  unfold F64.twice, F64.to_Q.
  rewrite Qpower_plus by discriminate.
  change ((2 ^ 1)%Q) with (2%Q). ring.
Qed.

Lemma to_Q_twice_any x :
  F64.is_finite x = true -> (F64.to_Q (F64.twice x) == 2 * F64.to_Q x)%Q.
Proof.
  destruct x as [s|s| |s m e]; try discriminate; intros _.
  - simpl. ring.
  - apply to_Q_twice.
Qed.

Lemma is_finite_twice x : F64.is_finite (F64.twice x) = F64.is_finite x.
Proof. destruct x; reflexivity. Qed.

(** Converting twice an integer. *)
Lemma of_Z_twice d :
  1 <= d ->
  F64.is_finite (F64.of_Z (2 * d)) = true ->
  F64.of_Z (2 * d) = F64.twice (F64.of_Z d).
Proof.
  intros Hd. destruct d as [|p|p]; try lia.
  change (2 * Z.pos p) with (Z.pos p~0).
  unfold F64.of_Z, binary_normalize.
  rewrite binary_round_xO. change (0 + 1) with 1. intros Hf.
  apply (binary_round_twice false p 0); [|exact Hf].
  pose proof (Zdigits2_pos (Zpos p)). lia.
Qed.

Lemma of_Z_finite_pos d s m e :
  1 <= d -> F64.of_Z d = S754_finite s m e ->
  s = false /\ 1 <= Zdigits2 (Zpos m) + e.
Proof.
  intros Hd. destruct d as [|p|p]; try lia.
  unfold F64.of_Z, binary_normalize. intros H.
  apply binary_round_finite in H. destruct H as (Hs & _ & Hm).
  pose proof (Zdigits2_pos (Zpos p)). split; [exact Hs | lia].
Qed.

(** Multiplying by a float and by its double. *)
Lemma mul_twice sa ma ea sy my ey :
  -1020 <= (Zdigits2 (Zpos ma) + ea) + (Zdigits2 (Zpos my) + ey) ->
  F64.is_finite (F64.mul (S754_finite sa ma ea) (S754_finite sy my (ey + 1))) = true ->
  F64.mul (S754_finite sa ma ea) (S754_finite sy my (ey + 1))
  = F64.twice (F64.mul (S754_finite sa ma ea) (S754_finite sy my ey)).
Proof.
  intros Hmag. unfold F64.mul, SFmul.
  rewrite Z.add_assoc. intros Hf.
  apply binary_round_aux_twice; [lia| |exact Hf].
  pose proof (Zdigits2_mul (Zpos ma) (Zpos my)). 
  rewrite Pos2Z.inj_mul. lia.
Qed.

(** The sum of two positive floats is not below the second one. *)
Lemma add_finite_pos m1 e1 m2 e2 s m e :
  F64.add (S754_finite false m1 e1) (S754_finite false m2 e2) = S754_finite s m e ->
  s = false /\ Zdigits2 (Zpos m2) + e2 <= Zdigits2 (Zpos m) + e.
Proof.
  unfold F64.add, SFadd, cond_Zopp.
  set (ez := Z.min e1 e2).
  destruct (shl_align_magnitude m2 e2 ez) as [Hmag Hsnd].
  set (a := fst (shl_align m1 e1 ez)). set (b := fst (shl_align m2 e2 ez)) in *.
  change (Z.pos a + Z.pos b) with (Z.pos (a + b)).
  unfold binary_normalize. intros H.
  apply binary_round_finite in H. destruct H as (Hs & _ & Hd).
  split; [exact Hs|].
  pose proof (Zdigits2_le (Zpos b) (Zpos (a + b))).
  rewrite Hsnd in Hmag. lia.
Qed.


Lemma mul_finite_sign sx mx ex sy my ey s m e :
  F64.mul (S754_finite sx mx ex) (S754_finite sy my ey) = S754_finite s m e ->
  s = xorb sx sy.
Proof.
  unfold F64.mul, SFmul. intros H.
  apply binary_round_aux_finite in H; [tauto | lia].
Qed.

(** The daily cost of the whole party, [per_person_daily * travelers +
    accom_daily], is not below the accommodation rate when it is finite. *)
Lemma party_daily_magnitude mp ep tf mc ec sa ma ea :
  (exists mt et, tf = S754_finite false mt et) \/ (exists st, tf = S754_zero st) ->
  F64.add (F64.mul (S754_finite false mp ep) tf) (S754_finite false mc ec)
    = S754_finite sa ma ea ->
  Zdigits2 (Zpos mc) + ec <= Zdigits2 (Zpos ma) + ea.
Proof.
  intros [(mt & et & ->)|(st & ->)].
  - destruct (F64.mul (S754_finite false mp ep) (S754_finite false mt et))
      as [s1|s1| |s1 m1 e1] eqn:E1.
    + simpl. intros [= <- <- <-]. lia.
    + discriminate.
    + discriminate.
    + apply mul_finite_sign in E1. simpl in E1. subst s1.
      intros H. apply add_finite_pos in H. tauto.
  - simpl. intros [= <- <- <-]. lia.
Qed.

Lemma base_rates_values key base :
  dict_index base_rates key = ok base -> In base [18; 35; 60].
Proof.
  unfold dict_index, base_rates. cbn [dict_get].
  repeat match goal with
         | |- context [String.eqb ?a key] => destruct (String.eqb a key)
         end; intros [= <-]; simpl; auto.
Qed.

Lemma dest_adj_values key :
  In (dict_get_default dest_adj key (F64.of_ratio 10 10))
     [F64.of_ratio 10 10; F64.of_ratio 11 10; F64.of_ratio 9 10; F64.of_ratio 8 10].
Proof.
  unfold dict_get_default, dest_adj. cbn [dict_get].
  repeat match goal with
         | |- context [String.eqb ?a key] => destruct (String.eqb a key)
         end; cbn [In]; auto.
Qed.

Lemma accom_map_values key :
  In (dict_get_default accom_map key 15) [15; 35; 80].
Proof.
  unfold dict_get_default, accom_map. cbn [dict_get].
  repeat match goal with
         | |- context [String.eqb ?a key] => destruct (String.eqb a key)
         end; cbn [In]; auto.
Qed.

Lemma per_person_daily_positive base adj :
  In base [18; 35; 60] ->
  In adj [F64.of_ratio 10 10; F64.of_ratio 11 10; F64.of_ratio 9 10; F64.of_ratio 8 10] ->
  exists m e,
    F64.add (F64.add (F64.mul (F64.of_Z base) adj) (F64.mul (F64.of_Z 8) adj)) (F64.of_Z 5)
    = S754_finite false m e.
Proof.
  cbn [In].
  intros [<-|[<-|[<-|[]]]] [<-|[<-|[<-|[<-|[]]]]];
    match goal with
    | |- exists m e, ?x = _ =>
        let v := eval vm_compute in x in
        match v with
        | S754_finite false ?m ?e => exists m, e; vm_compute; reflexivity
        end
    end.
Qed.

Lemma int_to_float_inv n f :
  F64.int_to_float n = ok f -> f = F64.of_Z n /\ F64.is_finite (F64.of_Z n) = true.
Proof.
  unfold F64.int_to_float. destruct (F64.is_finite (F64.of_Z n)); [|discriminate].
  intros [= <-]. split; reflexivity.
Qed.

Lemma of_Z_finite_cases n :
  1 <= n -> F64.is_finite (F64.of_Z n) = true ->
  (exists m e, F64.of_Z n = S754_finite false m e /\ 1 <= Zdigits2 (Zpos m) + e)
  \/ (exists s, F64.of_Z n = S754_zero s).
Proof.
  intros Hn Hf. destruct (F64.of_Z n) as [s|s| |s m e] eqn:E; try discriminate.
  - right. eauto.
  - left. destruct (of_Z_finite_pos n s m e Hn E) as [-> Hm]. eauto.
Qed.

(** The product with twice a converted integer. *)
Lemma mul_of_Z_twice a mc ec y :
  (forall sa ma ea, a = S754_finite sa ma ea -> Zdigits2 (Zpos mc) + ec <= Zdigits2 (Zpos ma) + ea) ->
  1 <= Zdigits2 (Zpos mc) + ec ->
  (exists m e, y = S754_finite false m e /\ 1 <= Zdigits2 (Zpos m) + e)
  \/ (exists s, y = S754_zero s) ->
  F64.is_finite (F64.mul a (F64.twice y)) = true ->
  F64.mul a (F64.twice y) = F64.twice (F64.mul a y).
Proof.
  intros Ha Hc [(m & e & -> & Hm)|(s & ->)] Hf.
  - destruct a as [sa|sa| |sa ma ea]; try reflexivity.
    cbn [F64.twice] in *. apply mul_twice; [|exact Hf].
    specialize (Ha sa ma ea eq_refl). lia.
  - cbn [F64.twice] in *. destruct a as [sa|sa| |sa ma ea]; try reflexivity; discriminate.
Qed.


Lemma accom_rate_float acc :
  In acc [15; 35; 80] ->
  exists mc ec, F64.of_Z acc = S754_finite false mc ec /\ 1 <= Zdigits2 (Zpos mc) + ec.
Proof.
  intros Hin.
  assert (Hpos : 1 <= acc) by (cbn [In] in Hin; lia).
  assert (Hfin : F64.is_finite (F64.of_Z acc) = true)
    by (cbn [In] in Hin; destruct Hin as [<-|[<-|[<-|[]]]]; reflexivity).
  destruct (of_Z_finite_cases acc Hpos Hfin) as [(m & e & H & Hm)|(s & H)].
  - exists m, e. split; assumption.
  - cbn [In] in Hin. destruct Hin as [<-|[<-|[<-|[]]]]; discriminate H.
Qed.

Lemma is_finite_of_Z_half n :
  1 <= n -> F64.is_finite (F64.of_Z (2 * n)) = true -> F64.is_finite (F64.of_Z n) = true.
Proof.
  intros Hn Hf. pose proof (of_Z_twice n Hn Hf) as H.
  rewrite H, is_finite_twice in Hf. exact Hf.
Qed.

Lemma ok_inj {A} (a b : A) : ok a = ok b -> a = b.
Proof. intros H. injection H as H. exact H. Qed.

Local Open Scope result_scope.

(** The unrounded total for twice the days. *)
Lemma budget_total_twice inp d tot2 :
  1 <= d -> 1 <= travelers inp ->
  budget_total (with_days (2 * d) inp) = ok tot2 ->
  exists tot1,
    budget_total (with_days d inp) = ok tot1
    /\ (F64.is_finite tot2 = true -> tot2 = F64.twice tot1).
Proof.
  intros Hd Ht. unfold budget_total, with_days, rbind.
  cbn [daily_style destination_type accommodation days travelers].
  destruct (dict_index base_rates (daily_style inp)) as [e|base] eqn:Eb; [discriminate|].
  destruct (per_person_daily_positive base _ (base_rates_values _ _ Eb)
              (dest_adj_values (destination_type inp))) as (mp & ep & Hppd).
  rewrite Hppd.
  destruct (accom_rate_float _ (accom_map_values (accommodation inp)))
    as (mc & ec & Hacc & Hcmag).
  rewrite Hacc.
  destruct (F64.int_to_float (travelers inp)) as [e|tf] eqn:Et; [discriminate|].
  destruct (int_to_float_inv _ _ Et) as [-> Htf].
  destruct (F64.int_to_float (2 * d)) as [e|y2] eqn:E2; [discriminate|].
  destruct (int_to_float_inv _ _ E2) as [-> Hy2].
  intros H. apply ok_inj in H. subst tot2.
  pose proof (is_finite_of_Z_half d Hd Hy2) as Hy.
  rewrite (int_to_float_finite d Hy).
  eexists. split; [reflexivity|].
  rewrite (of_Z_twice d Hd Hy2).
  apply (mul_of_Z_twice _ mc ec).
  - intros sa ma ea Ha. apply (party_daily_magnitude mp ep (F64.of_Z (travelers inp)) mc ec sa ma ea).
    + destruct (of_Z_finite_cases _ Ht Htf) as [(m & e & H & _)|(s & H)]; eauto.
    + exact Ha.
  - exact Hcmag.
  - apply of_Z_finite_cases; assumption.
Qed.


Lemma float_field_inv n f :
  float_field n = ok f -> F64.is_finite (F64.of_Z n) = true.
Proof.
  unfold float_field. destruct (F64.is_finite (F64.of_Z n)); [reflexivity|discriminate].
Qed.

(** What a returned estimate says about the request. *)
Lemma budget_calc_inv inp out :
  budget_calc inp = ok out ->
  exists tot,
    budget_total inp = ok tot
    /\ total_estimate out = F64.round2 tot
    /\ F64.is_finite (F64.of_Z (Z.max (days inp) 1)) = true
    /\ F64.is_finite (F64.of_Z (5 * travelers inp * days inp)) = true
    /\ F64.is_finite
         (F64.of_Z (dict_get_default accom_map (accommodation inp) 15 * days inp)) = true.
Proof.
  unfold budget_calc, budget_total, rbind. cbv zeta.
  destruct (dict_index base_rates (daily_style inp)) as [e|base]; [discriminate|].
  destruct (F64.int_to_float (travelers inp)) as [e|t]; [discriminate|].
  destruct (F64.int_to_float (days inp)) as [e|d]; [discriminate|].
  destruct (F64.int_to_float (Z.max (days inp) 1)) as [e|dmax] eqn:Em; [discriminate|].
  destruct (float_field (5 * travelers inp * days inp)) as [e|fm] eqn:Ef1; [discriminate|].
  destruct (float_field (dict_get_default accom_map (accommodation inp) 15 * days inp))
    as [e|fs] eqn:Ef2; [discriminate|].
  intros H. apply ok_inj in H. subst out.
  eexists. split; [reflexivity|]. split; [reflexivity|].
  apply int_to_float_inv in Em. apply float_field_inv in Ef1, Ef2. tauto.
Qed.

(** When the three remaining conversions succeed, the estimate returns. *)
Lemma budget_calc_returns inp tot :
  budget_total inp = ok tot ->
  F64.is_finite (F64.of_Z (Z.max (days inp) 1)) = true ->
  F64.is_finite (F64.of_Z (5 * travelers inp * days inp)) = true ->
  F64.is_finite
    (F64.of_Z (dict_get_default accom_map (accommodation inp) 15 * days inp)) = true ->
  exists out, budget_calc inp = ok out /\ total_estimate out = F64.round2 tot.
Proof.
  unfold budget_calc, budget_total, rbind. cbv zeta.
  destruct (dict_index base_rates (daily_style inp)) as [e|base]; [discriminate|].
  destruct (F64.int_to_float (travelers inp)) as [e|t]; [discriminate|].
  destruct (F64.int_to_float (days inp)) as [e|d]; [discriminate|].
  intros H Hm Hf1 Hf2. apply ok_inj in H. subst tot.
  rewrite (int_to_float_finite _ Hm), (float_field_finite _ Hf1), (float_field_finite _ Hf2).
  eexists. split; reflexivity.
Qed.

(** C7 as stated fails: for one traveler, beach, premium, standard and
    212350415470 days the estimate is 28093959966681.0, and for twice the days
    it is 56187919933362.01, which is not twice the former. *)
Lemma total_estimate_not_doubled :
  exists out1 out2,
    budget_calc (budget_request "beach" "premium" "standard" 1 212350415470) = ok out1
    /\ budget_calc (budget_request "beach" "premium" "standard" 1 (2 * 212350415470)) = ok out2
    /\ total_estimate out2 <> F64.mul (F64.of_Z 2) (total_estimate out1)
    /\ ~ (F64.to_Q (total_estimate out2) == 2 * F64.to_Q (total_estimate out1))%Q
    /\ (F64.to_Q (total_estimate out1) == 28093959966681 # 1)%Q
    /\ (F64.to_Q (total_estimate out2) - (56187919933362 # 1) == 1 # 128)%Q.
Proof.
  match goal with
  | |- exists out1 out2, ?b1 = _ /\ ?b2 = _ /\ _ =>
      let v1 := eval vm_compute in b1 in
      let v2 := eval vm_compute in b2 in
      match v1 with
      | inr ?o1 => match v2 with inr ?o2 => exists o1, o2 end
      end
  end.
  split; [vm_compute; reflexivity|].
  split; [vm_compute; reflexivity|].
  split; [vm_compute; discriminate|].
  split; [|split].
  - intros H. apply Qeq_bool_iff in H. vm_compute in H. discriminate H.
  - apply Qeq_bool_iff. vm_compute. reflexivity.
  - apply Qeq_bool_iff. vm_compute. reflexivity.
Qed.

(** Whenever the estimate for twice the days returns, so does the estimate
    for the days, and the unrounded totals are in the ratio two to one. *)
Lemma total_doubles_with_days (inp : BudgetInput) (d : Z) (out2 : BudgetOutput) :
  1 <= d ->
  1 <= travelers inp ->
  budget_calc (with_days (2 * d) inp) = ok out2 ->
  exists out1 tot1 tot2,
    budget_calc (with_days d inp) = ok out1
    /\ budget_total (with_days d inp) = ok tot1
    /\ budget_total (with_days (2 * d) inp) = ok tot2
    /\ total_estimate out1 = F64.round2 tot1
    /\ total_estimate out2 = F64.round2 tot2
    /\ (F64.is_finite tot2 = true ->
        tot2 = F64.twice tot1 /\ (F64.to_Q tot2 == 2 * F64.to_Q tot1)%Q).
Proof.
  intros Hd Ht H2.
  destruct (budget_calc_inv _ _ H2) as (tot2 & Htot2 & Hr2 & Hm & Hf1 & Hf2).
  destruct (budget_total_twice inp d tot2 Hd Ht Htot2) as (tot1 & Htot1 & Htw).
  cbn [with_days days travelers accommodation] in Hm, Hf1, Hf2.
  pose proof (accom_map_values (accommodation inp)) as Hacc.
  set (acc := dict_get_default accom_map (accommodation inp) 15) in *.
  assert (Hacc1 : 1 <= acc) by (cbn [In] in Hacc; lia).
  destruct (budget_calc_returns (with_days d inp) tot1 Htot1) as (out1 & Hout1 & Hr1).
  - cbn [with_days days]. replace (Z.max d 1) with d by lia.
    replace (Z.max (2 * d) 1) with (2 * d) in Hm by lia.
    apply is_finite_of_Z_half; assumption.
  - cbn [with_days days travelers].
    replace (5 * travelers inp * (2 * d)) with (2 * (5 * travelers inp * d)) in Hf1 by lia.
    apply is_finite_of_Z_half; [nia | exact Hf1].
  - cbn [with_days days accommodation]. fold acc.
    replace (acc * (2 * d)) with (2 * (acc * d)) in Hf2 by lia.
    apply is_finite_of_Z_half; [nia | exact Hf2].
  - exists out1, tot1, tot2. repeat split; try assumption.
    + apply Htw. assumption.
    + rewrite (Htw H). apply to_Q_twice_any.
      rewrite <- is_finite_twice, <- (Htw H). exact H.
Qed.

Lemma same_finite_eq x y : F64.same_finite x y = true -> x = y.
Proof.
  destruct x as [| | |s m e], y as [| | |s' m' e']; try discriminate. simpl.
  intros H. apply andb_prop in H. destruct H as [H He].
  apply andb_prop in H. destruct H as [Hs Hm].
  apply Bool.eqb_prop in Hs. apply Pos.eqb_eq in Hm. apply Z.eqb_eq in He.
  congruence.
Qed.

Lemma in_range n k : 1 <= n <= Z.of_nat k -> In n (map Z.of_nat (seq 1 k)).
Proof.
  intros H. apply in_map_iff. exists (Z.to_nat n). split; [lia|].
  apply in_seq. lia.
Qed.

Lemma doubles_up_to_spec (tmax dmax : nat) (dest acc style : string) (t d : Z) :
  doubles_up_to tmax dmax = true ->
  In dest ["city"; "beach"; "mountains"; "rural"] ->
  In acc ["budget"; "mid"; "premium"] ->
  In style ["thrifty"; "standard"; "comfort"] ->
  1 <= t <= Z.of_nat tmax ->
  1 <= d <= Z.of_nat dmax ->
  doubles_at dest acc style t d = true.
Proof.
  unfold doubles_up_to. intros H Hdest Hacc Hstyle Ht Hd.
  rewrite forallb_forall in H. specialize (H dest Hdest).
  rewrite forallb_forall in H. specialize (H acc Hacc).
  rewrite forallb_forall in H. specialize (H style Hstyle).
  rewrite forallb_forall in H. specialize (H t (in_range t tmax Ht)).
  rewrite forallb_forall in H. exact (H d (in_range d dmax Hd)).
Qed.

Lemma doubles_at_spec (dest acc style : string) (t d : Z) :
  doubles_at dest acc style t d = true ->
  exists out1 out2,
    budget_calc (budget_request dest acc style t d) = ok out1
    /\ budget_calc (budget_request dest acc style t (2 * d)) = ok out2
    /\ total_estimate out2 = F64.mul (F64.of_Z 2) (total_estimate out1).
Proof.
  unfold doubles_at.
  destruct (budget_calc (budget_request dest acc style t d)) as [e1|o1]; [discriminate|].
  destruct (budget_calc (budget_request dest acc style t (2 * d))) as [e2|o2]; [discriminate|].
  intros H. exists o1, o2. repeat split. apply same_finite_eq, H.
Qed.

Lemma doubles_up_to_two_weeks : doubles_up_to 4 14 = true.
Proof. vm_compute. reflexivity. Qed.

(** For up to four travelers and up to fourteen days the rounding does no
    harm: [total_estimate] itself doubles. *)
Lemma total_estimate_doubles_short_trip (dest acc style : string) (t d : Z) :
  In dest ["city"; "beach"; "mountains"; "rural"] ->
  In acc ["budget"; "mid"; "premium"] ->
  In style ["thrifty"; "standard"; "comfort"] ->
  1 <= t <= 4 ->
  1 <= d <= 14 ->
  exists out1 out2,
    budget_calc (budget_request dest acc style t d) = ok out1
    /\ budget_calc (budget_request dest acc style t (2 * d)) = ok out2
    /\ total_estimate out2 = F64.mul (F64.of_Z 2) (total_estimate out1).
Proof.
  intros Hdest Hacc Hstyle Ht Hd.
  apply doubles_at_spec.
  apply (doubles_up_to_spec 4 14); try assumption.
  exact doubles_up_to_two_weeks.
Qed.

(** C7, amended: for a known destination type, tier and style, up to four
    travelers and up to fourteen days, doubling the days doubles
    [total_estimate].  For any request, whenever the estimate for twice the
    days returns (days and travelers at least 1), the estimate for the days
    returns too; each [total_estimate] is the local [total] rounded to two
    decimals, and the [total] for twice the days, when finite, is exactly
    twice the [total] for the days.  The rounding to two decimals is what
    can break the doubling of [total_estimate]. *)
Theorem budget_total_doubles_with_days :
  (forall (dest acc style : string) (t d : Z),
     In dest ["city"; "beach"; "mountains"; "rural"] ->
     In acc ["budget"; "mid"; "premium"] ->
     In style ["thrifty"; "standard"; "comfort"] ->
     1 <= t <= 4 ->
     1 <= d <= 14 ->
     exists out1 out2,
       budget_calc (budget_request dest acc style t d) = ok out1
       /\ budget_calc (budget_request dest acc style t (2 * d)) = ok out2
       /\ total_estimate out2 = F64.mul (F64.of_Z 2) (total_estimate out1))
  /\ (forall (inp : BudgetInput) (d : Z) (out2 : BudgetOutput),
        1 <= d ->
        1 <= travelers inp ->
        budget_calc (with_days (2 * d) inp) = ok out2 ->
        exists out1 tot1 tot2,
          budget_calc (with_days d inp) = ok out1
          /\ budget_total (with_days d inp) = ok tot1
          /\ budget_total (with_days (2 * d) inp) = ok tot2
          /\ total_estimate out1 = F64.round2 tot1
          /\ total_estimate out2 = F64.round2 tot2
          /\ (F64.is_finite tot2 = true ->
              tot2 = F64.twice tot1 /\ (F64.to_Q tot2 == 2 * F64.to_Q tot1)%Q)).
Proof.
  split.
  - exact total_estimate_doubles_short_trip.
  - exact total_doubles_with_days.
Qed.

Lemma budget_total_doubles_with_days_witness :
  (exists out1 out2,
     budget_calc (budget_request "beach" "premium" "standard" 2 7) = ok out1
     /\ budget_calc (budget_request "beach" "premium" "standard" 2 14) = ok out2
     /\ total_estimate out2 = F64.mul (F64.of_Z 2) (total_estimate out1))
  /\ (exists out1 tot1 tot2,
        budget_calc (budget_request "beach" "premium" "standard" 1 212350415470) = ok out1
        /\ budget_total (budget_request "beach" "premium" "standard" 1 212350415470) = ok tot1
        /\ budget_total (budget_request "beach" "premium" "standard" 1 424700830940) = ok tot2
        /\ tot2 = F64.twice tot1).
Proof.
  destruct budget_total_doubles_with_days as [Hshort Hany].
  split.
  - apply (Hshort "beach" "premium" "standard" 2 7); simpl; auto; lia.
  - destruct (Hany (budget_request "beach" "premium" "standard" 1 1) 212350415470
                (match budget_calc (budget_request "beach" "premium" "standard" 1 424700830940) with
                 | inr o => o
                 | inl _ => {| total_estimate := S754_nan; per_day := S754_nan;
                               breakdown := {| food := S754_nan; transport := S754_nan;
                                               misc := S754_nan; stay := S754_nan |};
                               suggestions := [] |}
                 end))
      as (out1 & tot1 & tot2 & H1 & H2 & H3 & _ & _ & H4).
    + lia.
    + simpl. lia.
    + vm_compute. reflexivity.
    + exists out1, tot1, tot2. split; [exact H1|]. split; [exact H2|]. split; [exact H3|].
      apply H4. vm_compute in H3. apply ok_inj in H3. rewrite <- H3. reflexivity.
Defined.

End Doubling.

(** ** Exact conversions and the lenient lookups *)

Section Lenient.

Local Open Scope result_scope.

(** Rounding a mantissa that already fits is the identity. *)
Lemma binary_round_aux_exact s m e :
  fexp F64.prec F64.emax (Zdigits2 (Zpos m) + e) <= e ->
  e <= 971 ->
  binary_round_aux F64.prec F64.emax s (Zpos m) e loc_Exact = S754_finite s m e.
Proof.
  intros Hf He.
  assert (Hs : forall l, shr_fexp F64.prec F64.emax (Zpos m) e l
                         = (shr_record_of_loc (Zpos m) l, e)).
  { intros l. unfold shr_fexp, shr.
    destruct (fexp F64.prec F64.emax (Zdigits2 (Zpos m) + e) - e) eqn:E;
      try reflexivity. lia. }
  rewrite Rounding.binary_round_aux_eq. cbv zeta.
  rewrite Hs. cbn [fst snd shr_record_of_loc shr_m loc_of_shr_record round_nearest_even].
  rewrite Hs. cbn [fst snd shr_record_of_loc shr_m].
  replace (e <=? F64.emax - F64.prec) with true; [reflexivity|].
  symmetry. apply Z.leb_le. cbn. lia.
Qed.

Lemma shl_align_value m e e' :
  Zpos (fst (shl_align m e e')) = Zpos m * 2 ^ (e - snd (shl_align m e e')).
Proof.
  unfold shl_align. destruct (e' - e) as [|p|p] eqn:E; cbn [fst snd].
  - rewrite Z.sub_diag. simpl. lia.
  - rewrite Z.sub_diag. simpl. lia.
  - rewrite Rounding.iter_xO_pow2. f_equal. f_equal. lia.
Qed.

Lemma pow2_Q k : 0 <= k -> (inject_Z (2 ^ k)%Z * 2 ^ (- k) == 1)%Q.
Proof.
  intros Hk. rewrite Zpower_Qpower by exact Hk. rewrite Qpower_opp.
  apply Qmult_inv_r. apply Qpower_not_0. discriminate.
Qed.

Lemma binary_round_small s p :
  Zpos p < 2 ^ 53 ->
  exists m e,
    binary_round F64.prec F64.emax s p 0 = S754_finite s m e
    /\ (inject_Z (Zpos m) * 2 ^ e == inject_Z (Zpos p))%Q.
Proof.
  intros Hp.
  assert (Hd : Zdigits2 (Zpos p) <= 53).
  { destruct (Rounding.Zdigits2_spec (Zpos p) ltac:(lia)) as [Hlo _].
    destruct (Z_le_gt_dec (Zdigits2 (Zpos p)) 53) as [H|H]; [exact H|].
    assert (2 ^ 53 <= 2 ^ (Zdigits2 (Zpos p) - 1)) by (apply Z.pow_le_mono_r; lia). lia. }
  pose proof (Rounding.Zdigits2_pos (Zpos p) ltac:(lia)) as Hd1.
  rewrite Rounding.binary_round_eq. cbv zeta.
  change (Z.pos (digits2_pos p)) with (Zdigits2 (Z.pos p)).
  set (F := fexp F64.prec F64.emax (Zdigits2 (Z.pos p) + 0)).
  assert (HF : F = Zdigits2 (Zpos p) - 53).
  { unfold F. rewrite Rounding.fexp_eq. lia. }
  destruct (Rounding.shl_align_magnitude p 0 F) as [Hmag Hsnd].
  pose proof (shl_align_value p 0 F) as Hval.
  set (a := shl_align p 0 F) in *.
  exists (fst a), (snd a). split.
  - apply binary_round_aux_exact; [|lia].
    rewrite Hmag. fold F. lia.
  - rewrite Hval, Hsnd. replace (Z.min 0 F) with F by lia.
    replace (0 - F) with (- F) by lia.
    rewrite inject_Z_mult, <- Qmult_assoc.
    replace F with (- (- F)) at 2 by lia.
    rewrite (pow2_Q (- F)) by lia. ring.
Qed.

(** An integer below 2^53 in absolute value converts to a float exactly. *)
Lemma of_Z_small n :
  Z.abs n < 2 ^ 53 ->
  F64.is_finite (F64.of_Z n) = true /\ (F64.to_Q (F64.of_Z n) == inject_Z n)%Q.
Proof.
  intros Hn. destruct n as [|p|p]; unfold F64.of_Z, binary_normalize.
  - split; reflexivity.
  - destruct (binary_round_small false p Hn) as (m & e & -> & Hq).
    split; [reflexivity | exact Hq].
  - destruct (binary_round_small true p Hn) as (m & e & -> & Hq).
    split; [reflexivity|]. cbn [F64.to_Q cond_Zopp].
    change (Z.opp (Z.pos m)) with (- Z.pos m). change (Z.neg p) with (- Z.pos p).
    rewrite !inject_Z_opp. rewrite <- Hq. ring.
Qed.

Lemma budget_calc_breakdown inp out :
  budget_calc inp = ok out ->
  misc (breakdown out) = F64.of_Z (5 * travelers inp * days inp)
  /\ stay (breakdown out)
     = F64.of_Z (dict_get_default accom_map (accommodation inp) 15 * days inp).
Proof.
  unfold budget_calc, rbind. cbv zeta.
  destruct (dict_index base_rates (daily_style inp)) as [e|base]; [discriminate|].
  destruct (F64.int_to_float (travelers inp)) as [e|t]; [discriminate|].
  destruct (F64.int_to_float (days inp)) as [e|d]; [discriminate|].
  destruct (F64.int_to_float (Z.max (days inp) 1)) as [e|dmax]; [discriminate|].
  unfold float_field.
  destruct (F64.is_finite (F64.of_Z (5 * travelers inp * days inp))); [|discriminate].
  destruct (F64.is_finite
              (F64.of_Z (dict_get_default accom_map (accommodation inp) 15 * days inp)));
    [|discriminate].
  intros H. apply Doubling.ok_inj in H. subst out. split; reflexivity.
Qed.

(** With a known style and day and traveler counts of ordinary size every
    conversion to [float] succeeds: the estimate returns, and its total is
    the float total rounded to two decimals. *)
Lemma budget_calc_returns_bounded (inp : BudgetInput) :
  In (daily_style inp) ["thrifty"; "standard"; "comfort"] ->
  Z.abs (travelers inp) < 2 ^ 53 ->
  80 * Z.abs (days inp) < 2 ^ 53 ->
  5 * Z.abs (travelers inp) * Z.abs (days inp) < 2 ^ 53 ->
  exists out tot,
    budget_calc inp = ok out
    /\ budget_total inp = ok tot
    /\ total_estimate out = F64.round2 tot.
Proof.
  intros Hstyle Ht Hd Htd.
  assert (Hbase : exists base, dict_index base_rates (daily_style inp) = ok base).
  { cbn [In] in Hstyle. destruct Hstyle as [<-|[<-|[<-|[]]]]; eexists; reflexivity. }
  destruct Hbase as [base Hbase].
  pose proof (Doubling.accom_map_values (accommodation inp)) as Hacc.
  assert (Hft : F64.is_finite (F64.of_Z (travelers inp)) = true) by (apply of_Z_small; lia).
  assert (Hfd : F64.is_finite (F64.of_Z (days inp)) = true) by (apply of_Z_small; lia).
  assert (Htot : exists tot, budget_total inp = ok tot).
  { unfold budget_total, rbind. rewrite Hbase. cbv zeta.
    rewrite (int_to_float_finite _ Hft), (int_to_float_finite _ Hfd). eexists. reflexivity. }
  destruct Htot as [tot Htot].
  destruct (Doubling.budget_calc_returns inp tot Htot) as (out & Hout & Hr).
  - apply of_Z_small. lia.
  - apply of_Z_small. rewrite !Z.abs_mul. change (Z.abs 5) with 5. lia.
  - apply of_Z_small. rewrite Z.abs_mul. cbn [In] in Hacc.
    destruct Hacc as [<-|[<-|[<-|[]]]]; cbn [Z.abs]; lia.
  - exists out, tot. auto.
Qed.



End Lenient.

(** * Further properties *)

(** ** Intent detection *)

Section Intent.

Lemma lower_app s t : Str.lower (s ++ t) = Str.lower s ++ Str.lower t.
Proof. induction s as [|c s IH]; simpl; [reflexivity | rewrite IH; reflexivity]. Qed.

Lemma prefix_app k t : String.prefix k (k ++ t) = true.
Proof.
  induction k as [|c k IH]; simpl; [destruct t; reflexivity|].
  destruct (ascii_dec c c) as [_|H]; [exact IH | congruence].
Qed.

Lemma contains_app_r k pre t : Str.contains k t = true -> Str.contains k (pre ++ t) = true.
Proof.
  intros H. induction pre as [|c pre IH]; simpl; [exact H|].
  rewrite IH. apply orb_true_r.
Qed.

Lemma contains_here k t : Str.contains k (k ++ t) = true.
Proof.
  assert (H : String.prefix k (k ++ t) = true) by apply prefix_app.
  destruct (k ++ t); cbn [Str.contains]; rewrite H; reflexivity.
Qed.

Lemma contains_middle k pre post : Str.contains k (pre ++ k ++ post) = true.
Proof. apply contains_app_r, contains_here. Qed.


Lemma prefix_inv k t : String.prefix k t = true -> exists post, t = k ++ post.
Proof.
  revert t. induction k as [|c k IH]; intros t H.
  - exists t. reflexivity.
  - destruct t as [|d t]; simpl in H; [discriminate|].
    destruct (ascii_dec c d) as [->|_]; [|discriminate].
    destruct (IH t H) as [post ->]. exists post. reflexivity.
Qed.

Lemma contains_inv k t : Str.contains k t = true -> exists pre post, t = pre ++ k ++ post.
Proof.
  induction t as [|c t IH]; cbn [Str.contains]; intros H; apply orb_prop in H.
  - destruct H as [H|H]; [|discriminate].
    destruct (prefix_inv _ _ H) as [post E]. exists "", post. exact E.
  - destruct H as [H|H].
    + destruct (prefix_inv _ _ H) as [post E]. exists "", post. exact E.
    + destruct (IH H) as (pre & post & ->). exists (String c pre), post. reflexivity.
Qed.

Lemma append_assoc (a b c : string) : (a ++ b) ++ c = a ++ b ++ c.
Proof. induction a as [|x a IH]; simpl; [reflexivity | rewrite IH; reflexivity]. Qed.

(** A text that contains a longer keyword contains each part of it. *)
Lemma contains_part a k b t :
  Str.contains (a ++ k ++ b) t = true -> Str.contains k t = true.
Proof.
  intros H. destruct (contains_inv _ _ H) as (pre & post & ->).
  replace (pre ++ (a ++ k ++ b) ++ post) with ((pre ++ a) ++ k ++ (b ++ post))
    by (rewrite !append_assoc; reflexivity).
  apply contains_middle.
Qed.

(** X2: an ASCII message that mentions one of the first rule's keywords,
    in any letter case and anywhere in the text, is classified
    [where_travel] whatever else it says. *)
Theorem detect_intent_first_rule_wins (pre kw post : string) :
  Str.is_ascii pre = true ->
  Str.is_ascii kw = true ->
  Str.is_ascii post = true ->
  In (Str.lower kw) ["where should i travel"; "go where"; "destination"] ->
  detect_intent (pre ++ kw ++ post) = "where_travel".
Proof.
  intros _ _ _ Hin. unfold detect_intent. rewrite !lower_app.
  assert (H : Str.any_in ["where should i travel"; "go where"; "destination"]
                (Str.lower pre ++ Str.lower kw ++ Str.lower post) = true).
  { unfold Str.any_in. apply existsb_exists. exists (Str.lower kw).
    split; [exact Hin | apply contains_middle]. }
  rewrite H. reflexivity.
Qed.

Lemma detect_intent_first_rule_wins_witness :
  detect_intent ("Cheap food and a safe bus for girls at my " ++ "Destination" ++ "?")
  = "where_travel".
Proof.
  apply (detect_intent_first_rule_wins "Cheap food and a safe bus for girls at my "
           "Destination" "?").
  - reflexivity.
  - reflexivity.
  - reflexivity.
  - simpl. auto.
Defined.

(** X3: two keywords of [detect_intent] never decide anything: a text that
    contains "packing" contains "pack", and one that contains "safe to eat"
    contains "eat", so the two rules match the same texts without them. *)
Theorem redundant_keywords (t : string) :
  Str.any_in ["pack"; "packing"; "luggage"] t = Str.any_in ["pack"; "luggage"] t
  /\ Str.any_in ["eat"; "food"; "restaurant"; "safe to eat"] t
     = Str.any_in ["eat"; "food"; "restaurant"] t.
Proof.
  unfold Str.any_in. cbn [existsb]. split.
  - destruct (Str.contains "pack" t) eqn:E1; [reflexivity|].
    destruct (Str.contains "packing" t) eqn:E2; [|reflexivity].
    apply (contains_part "" "pack" "ing") in E2. congruence.
  - destruct (Str.contains "eat" t) eqn:E1; [reflexivity|].
    destruct (Str.contains "safe to eat" t) eqn:E2.
    + apply (contains_part "safe to " "eat" "") in E2. congruence.
    + rewrite !orb_false_r. reflexivity.
Qed.

(** The labels [detect_intent] can return. *)
Lemma detect_intent_range (text : string) :
  In (detect_intent text)
    ["where_travel"; "budget_low"; "eat_safe"; "transport_best"; "girls_safety";
     "packing"; "cost_reduce"; "confusing_plan"; "hidden_places"; "lost_item";
     "scared"; "adventures"; "general"].
Proof.
  unfold detect_intent. cbv zeta.
  repeat match goal with
         | |- context [if ?b then _ else _] => destruct b
         end; cbn [In]; tauto.
Qed.

End Intent.

(** ** The response composer *)

Section Composer.

(** X4: without a Hindi locale the fallback text is the reply exactly when
    the intent is [general], the destination question exactly when it is
    [where_travel], and every other label the classifier can return has its
    entry in [PROBLEM_KB], which is the reply. *)
Theorem ai_reply_by_intent (message locale : string) :
  String.prefix "hi" locale = false ->
  (ChatResponse.reply (ai_reply message locale) = reply_general
   <-> detect_intent message = "general")
  /\ (ChatResponse.reply (ai_reply message locale) = reply_where_travel
      <-> detect_intent message = "where_travel")
  /\ (detect_intent message <> "general" ->
      detect_intent message <> "where_travel" ->
      dict_get PROBLEM_KB (detect_intent message)
      = Some (ChatResponse.reply (ai_reply message locale))).
Proof.
  intros Hloc. unfold ai_reply. rewrite Hloc. cbv zeta. cbn [ChatResponse.reply].
  pose proof (detect_intent_range message) as Hr. cbn [In] in Hr.
  repeat (destruct Hr as [Hr|Hr]; [rewrite <- Hr;
    (repeat split; try (intros H; try discriminate H; try reflexivity);
     try (vm_compute in H; discriminate H); try congruence; try reflexivity) | ]).
  destruct Hr.
Qed.

Lemma ai_reply_by_intent_witness :
  dict_get PROBLEM_KB "lost_item"
  = Some (ChatResponse.reply (ai_reply "I lost my wallet" "en")).
Proof.
  destruct (ai_reply_by_intent "I lost my wallet" "en" eq_refl) as (_ & _ & H).
  apply H; vm_compute; discriminate.
Defined.

(** X5: with a locale that starts with "hi" the tips are the Hindi ones
    and the follow-up questions stay English; the reply is the Hindi text
    only for the intent [general], and for every other intent it is the
    same English reply as for the locale "en". *)
Theorem ai_reply_hindi (message locale : string) :
  String.prefix "hi" locale = true ->
  ChatResponse.tips (ai_reply message locale) = reply_tips_hi
  /\ ChatResponse.followups (ai_reply message locale) = reply_followups
  /\ ChatResponse.locale (ai_reply message locale) = locale
  /\ (detect_intent message = "general" ->
      ChatResponse.reply (ai_reply message locale) = reply_general_hi)
  /\ (detect_intent message <> "general" ->
      ChatResponse.reply (ai_reply message locale)
      = ChatResponse.reply (ai_reply message "en")).
Proof.
  intros Hloc. unfold ai_reply. rewrite Hloc. cbv zeta.
  change (String.prefix "hi" "en") with false. cbv iota. cbn [ChatResponse.reply
    ChatResponse.tips ChatResponse.followups ChatResponse.locale].
  repeat split.
  - intros H. rewrite H. reflexivity.
  - intros H. apply String.eqb_neq in H. rewrite H. reflexivity.
Qed.

Lemma ai_reply_hindi_witness :
  ChatResponse.reply (ai_reply "cheap hotel?" "hi-IN")
  = ChatResponse.reply (ai_reply "cheap hotel?" "en")
  /\ ChatResponse.tips (ai_reply "namaste" "hi") = reply_tips_hi.
Proof.
  split.
  - apply (ai_reply_hindi "cheap hotel?" "hi-IN" eq_refl). vm_compute. discriminate.
  - apply (ai_reply_hindi "namaste" "hi" eq_refl).
Defined.

End Composer.

(** ** The ledger: what the operations keep *)

Section LedgerMore.

Local Open Scope handler_scope.

Lemma find_user_update_other other uid f l :
  other <> uid ->
  (forall p, UserProfile.user_id (f p) = UserProfile.user_id p) ->
  find_user other (update_user uid f l) = find_user other l.
Proof.
  intros Hne Hf. induction l as [|q l IH]; simpl; [reflexivity|].
  destruct (String.eqb (UserProfile.user_id q) uid) eqn:E; simpl.
  - apply String.eqb_eq in E. rewrite Hf.
    assert (Hq : String.eqb (UserProfile.user_id q) other = false)
      by (apply String.eqb_neq; congruence).
    rewrite Hq. reflexivity.
  - destruct (String.eqb (UserProfile.user_id q) other); [reflexivity | exact IH].
Qed.

Lemma update_user_ids uid f l :
  (forall p, UserProfile.user_id (f p) = UserProfile.user_id p) ->
  map UserProfile.user_id (update_user uid f l) = map UserProfile.user_id l.
Proof.
  intros Hf. induction l as [|q l IH]; simpl; [reflexivity|].
  destruct (String.eqb (UserProfile.user_id q) uid); simpl; [rewrite Hf|rewrite IH]; reflexivity.
Qed.

Lemma find_user_none uid l :
  find_user uid l = None <-> ~ In uid (map UserProfile.user_id l).
Proof.
  induction l as [|q l IH]; simpl; [tauto|].
  destruct (String.eqb (UserProfile.user_id q) uid) eqn:E.
  - apply String.eqb_eq in E. split; [discriminate | tauto].
  - apply String.eqb_neq in E. rewrite IH. tauto.
Qed.

(** What [ensure_user] leaves of the profiles: the old ones, or the old ones
    followed by the welcome profile of a user who had none. *)
Lemma ensure_user_profiles uid w :
  userprofile (db (snd (ensure_user uid w))) = userprofile (db w)
  \/ (handle w = Testable
      /\ find_user uid (userprofile (db w)) = None
      /\ userprofile (db (snd (ensure_user uid w)))
         = (userprofile (db w) ++ [UserProfile.make uid WELCOME_COINS])%list).
Proof.
  destruct (handle w) eqn:Hh.
  - left. rewrite (ensure_user_no_handle _ _ Hh). reflexivity.
  - left. rewrite (ensure_user_untestable _ _ Hh). reflexivity.
  - destruct (find_user uid (userprofile (db w))) as [q|] eqn:E.
    + left. rewrite (ensure_user_found _ _ _ Hh E). reflexivity.
    + right. rewrite (ensure_user_created _ _ Hh E). auto.
Qed.

Lemma ensure_user_other uid w other :
  uid <> other ->
  find_user other (userprofile (db (snd (ensure_user uid w))))
  = find_user other (userprofile (db w)).
Proof.
  intros Hne. destruct (ensure_user_profiles uid w) as [E|(_ & _ & E)]; rewrite E.
  - reflexivity.
  - apply find_user_app_other. cbn. exact Hne.
Qed.

(** Neither the ledger, nor the passes, nor the clock are touched. *)
Lemma ensure_user_rest uid w :
  rewardledger (db (snd (ensure_user uid w))) = rewardledger (db w)
  /\ premiumpass (db (snd (ensure_user uid w))) = premiumpass (db w)
  /\ clock (snd (ensure_user uid w)) = clock w.
Proof.
  destruct (handle w) eqn:Hh.
  - rewrite (ensure_user_no_handle _ _ Hh). auto.
  - rewrite (ensure_user_untestable _ _ Hh). auto.
  - destruct (ensure_user_returns uid w Hh) as (_ & _ & _ & Hc & Hl & Hp & _). auto.
Qed.

(** X6: [ensure_user] behind each kind of handle.  Behind a handle that
    tests true it returns a profile with the requested id, a second call
    returns the same profile and changes nothing, and the stored profiles
    are the old ones or the old ones followed by the welcome profile.
    Without a handle, and behind a handle without a truth test, it raises
    and leaves the world as it was.  In every case no other user's profile,
    no ledger entry, no pass and no clock reading is affected. *)
Theorem ensure_user_idempotent (uid : string) (w : World) :
  let w1 := snd (ensure_user uid w) in
  (handle w = Testable ->
   (exists p, ensure_user uid w = (ok (Some p), w1) /\ UserProfile.user_id p = uid)
   /\ ensure_user uid w1 = (fst (ensure_user uid w), w1)
   /\ (userprofile (db w1) = userprofile (db w)
       \/ (find_user uid (userprofile (db w)) = None
           /\ userprofile (db w1)
              = (userprofile (db w) ++ [UserProfile.make uid WELCOME_COINS])%list)))
  /\ (handle w = NoHandle -> exists e, ensure_user uid w = (raise e, w))
  /\ (handle w = Untestable -> ensure_user uid w = (raise NotImplementedError, w))
  /\ (forall other, other <> uid ->
        find_user other (userprofile (db w1)) = find_user other (userprofile (db w)))
  /\ rewardledger (db w1) = rewardledger (db w)
  /\ premiumpass (db w1) = premiumpass (db w)
  /\ clock w1 = clock w
  /\ handle w1 = handle w.
Proof.
  intros w1. unfold w1.
  split.
  { intros Hh.
    destruct (ensure_user_returns uid w Hh) as (p & He & Hf & _ & _ & _ & Hh1).
    split; [exists p; split; [exact He | exact (find_user_id _ _ _ Hf)]|].
    split; [rewrite (ensure_user_found _ _ _ Hh1 Hf); f_equal; rewrite He; reflexivity|].
    destruct (ensure_user_profiles uid w) as [E|(_ & Hn & E)]; [left | right]; auto. }
  split; [intros Hh; eexists; apply ensure_user_no_handle, Hh|].
  split; [apply ensure_user_untestable|].
  split; [intros other Hne; apply ensure_user_other; congruence|].
  destruct (ensure_user_rest uid w) as (Hl & Hp & Hc).
  repeat split; auto. apply ensure_user_handle.
Qed.

(** X7: [reward] behind a handle that tests true.  When the new balance and
    the requested coins fit the 8 bytes of the store, it returns the new
    balance, which is the balance read afterwards, and appends one ledger
    entry that carries the requested coins as they are, even when they are
    zero or negative, while the balance moves by the coins floored at zero:
    a request with coins <= 0 leaves the balance as it was.  When the new
    balance does not fit, it raises OverflowError, the balance stays and no
    ledger entry is written.  No pass is written in any case. *)
Theorem reward_logs_requested_coins (req : RewardRequest) (w : World) :
  handle w = Testable ->
  exists bal,
    fst (coins (rw_user_id req) w) = ok bal
    /\ (fits_int64 (bal + Z.max 0 (rw_coins req)) = true ->
        fits_int64 (rw_coins req) = true ->
        fst (reward req w) = ok (bal + Z.max 0 (rw_coins req))
        /\ fst (coins (rw_user_id req) (snd (reward req w)))
           = ok (bal + Z.max 0 (rw_coins req))
        /\ rewardledger (db (snd (reward req w)))
           = (rewardledger (db w) ++ [ledger_entry req])%list
        /\ RewardLedger.coins (ledger_entry req) = rw_coins req
        /\ (rw_coins req <= 0 ->
            fst (coins (rw_user_id req) (snd (reward req w))) = ok bal))
    /\ (fits_int64 (bal + Z.max 0 (rw_coins req)) = false ->
        fst (reward req w) = raise OverflowError
        /\ fst (coins (rw_user_id req) (snd (reward req w))) = ok bal
        /\ rewardledger (db (snd (reward req w))) = rewardledger (db w))
    /\ premiumpass (db (snd (reward req w))) = premiumpass (db w).
Proof.
  intros Hh.
  destruct (ensure_user_returns (rw_user_id req) w Hh) as (p & He & Hf & Hc & Hl & Hp & Hh1).
  set (w1 := snd (ensure_user (rw_user_id req) w)) in *.
  exists (UserProfile.get_coins p).
  split; [unfold coins, bind; rewrite He; reflexivity|].
  rewrite (reward_run _ _ _ _ He).
  split; [|split].
  - intros F1 F2. rewrite F1, F2. cbn [fst snd].
    assert (Hafter : fst (coins (rw_user_id req)
                            (rewarded_world req w1
                               (UserProfile.get_coins p + Z.max 0 (rw_coins req))))
                     = ok (UserProfile.get_coins p + Z.max 0 (rw_coins req))).
    { rewrite (coins_of_found _ _
                 (UserProfile.set_coins (UserProfile.get_coins p + Z.max 0 (rw_coins req))
                    (readings (clock w1) (ticks (clock w1))) p)).
      - reflexivity.
      - exact Hh1.
      - cbn. apply find_user_update; [exact Hf | reflexivity]. }
    split; [reflexivity|]. split; [exact Hafter|].
    split; [cbn [rewarded_world balance_set db rewardledger]; rewrite Hl; reflexivity|].
    split; [reflexivity|].
    intros Hneg. rewrite Hafter. f_equal. lia.
  - intros F1. rewrite F1. cbn [fst snd].
    split; [reflexivity|].
    split; [|exact Hl].
    rewrite (coins_of_found _ (tick w1) p); [reflexivity | exact Hh1 | exact Hf].
  - destruct (fits_int64 _); [destruct (fits_int64 _)|]; exact Hp.
Qed.

Lemma reward_logs_requested_coins_witness :
  fst (coins "u1" (snd (reward {| rw_user_id := "u1"; rw_action := "ad";
                                  rw_coins := -5; rw_notes := None |}
                          (world_with_balance "u1" 20))))
  = ok 20.
Proof.
  destruct (reward_logs_requested_coins
              {| rw_user_id := "u1"; rw_action := "ad"; rw_coins := -5; rw_notes := None |}
              (world_with_balance "u1" 20) eq_refl)
    as (bal & Hb & Hfit & _).
  assert (E : ok bal = ok 20) by (rewrite <- Hb; reflexivity).
  assert (Eb : bal = 20) by (injection E; trivial).
  subst bal.
  destruct (Hfit eq_refl eq_refl) as (_ & _ & _ & _ & Hneg).
  exact (Hneg ltac:(simpl; lia)).
Defined.

(** The profiles an operation leaves: those [ensure_user] leaves, one of
    them possibly with another balance. *)
Lemma step_profiles o w :
  userprofile (db (step w o)) = userprofile (db w)
  \/ userprofile (db (step w o)) = userprofile (db (snd (ensure_user (op_user o) w)))
  \/ exists c now,
       userprofile (db (step w o))
       = update_user (op_user o) (UserProfile.set_coins c now)
           (userprofile (db (snd (ensure_user (op_user o) w)))).
Proof.
  destruct o as [uid|req|req]; cbn [step op_user].
  - right. left. reflexivity.
  - destruct (ensure_user_cases (rw_user_id req) w) as [(e & He)|(p & He & _)].
    + left. rewrite (reward_raises _ _ _ _ He). reflexivity.
    + right. rewrite (reward_run _ _ _ _ He).
      destruct (fits_int64 _); [|left; reflexivity].
      right. do 2 eexists. destruct (fits_int64 _); reflexivity.
  - destruct (dict_get pass_days (rd_duration req)) as [nd|] eqn:Ed.
    2:{ left. unfold redeem, bind, lift, dict_index. rewrite Ed. reflexivity. }
    destruct (ensure_user_cases (rd_user_id req) w) as [(e & He)|(p & He & _)].
    + left. rewrite (redeem_raises _ _ _ _ _ Ed He). reflexivity.
    + right. destruct (dict_get costs (rd_duration req)) as [price|] eqn:Ec.
      2:{ left. unfold redeem, bind, lift, dict_index. rewrite Ed, He, Ec. reflexivity. }
      rewrite (redeem_run _ _ _ _ _ _ Ed Ec He).
      destruct (_ <? price); [left; reflexivity|].
      destruct (fits_int64 _); [|left; reflexivity].
      right. do 2 eexists. reflexivity.
Qed.

(** X8: an operation for one user never changes what is stored for another,
    behind any handle and whether it returns or raises: after [ensure_user],
    [reward] or [redeem] for a user, every other user's profile (and so
    balance) is what it was, or still absent. *)
Theorem ledger_ops_leave_other_users (o : op) (w : World) (other : string) :
  op_user o <> other ->
  find_user other (userprofile (db (step w o))) = find_user other (userprofile (db w)).
Proof.
  intros Hne.
  destruct (step_profiles o w) as [E|[E|(c & now & E)]]; rewrite E.
  - reflexivity.
  - apply ensure_user_other, Hne.
  - rewrite find_user_update_other; [apply ensure_user_other, Hne | congruence | reflexivity].
Qed.

Lemma ledger_ops_leave_other_users_witness :
  find_user "u2"
    (userprofile (db (step (world_with_balance "u2" 70)
                        (Redeem (redeem_request "u1" "1d")))))
  = Some (UserProfile.make "u2" 70).
Proof.
  rewrite (ledger_ops_leave_other_users (Redeem (redeem_request "u1" "1d"))
             (world_with_balance "u2" 70) "u2").
  - reflexivity.
  - simpl. discriminate.
Defined.

Lemma step_user_ids o w :
  user_ids (step w o) = user_ids w
  \/ (~ In (op_user o) (user_ids w) /\ user_ids (step w o) = (user_ids w ++ [op_user o])%list).
Proof.
  assert (Hens : forall uid,
            user_ids (snd (ensure_user uid w)) = user_ids w
            \/ (~ In uid (user_ids w)
                /\ user_ids (snd (ensure_user uid w)) = (user_ids w ++ [uid])%list)).
  { intros uid. unfold user_ids.
    destruct (ensure_user_profiles uid w) as [E|(_ & Hn & E)]; rewrite E.
    - left. reflexivity.
    - right. split; [apply find_user_none, Hn|]. rewrite map_app. reflexivity. }
  unfold user_ids in *.
  destruct (step_profiles o w) as [E|[E|(c & now & E)]]; rewrite E.
  - left. reflexivity.
  - apply Hens.
  - rewrite update_user_ids by reflexivity. apply Hens.
Qed.

(** X9: the operations never store two profiles for one user id, and never
    remove one: from the empty store, behind any handle, every reachable
    list of user ids is free of duplicates, and one more operation keeps the
    ids there are, in their order, adding at most the id it is about. *)
Theorem one_profile_per_user (h : Handle) (c : Clock) (ops : list op) (o : op) :
  NoDup (user_ids (run ops (initial_world h c)))
  /\ (user_ids (step (run ops (initial_world h c)) o) = user_ids (run ops (initial_world h c))
      \/ user_ids (step (run ops (initial_world h c)) o)
         = (user_ids (run ops (initial_world h c)) ++ [op_user o])%list).
Proof.
  split.
  - assert (H : forall w, NoDup (user_ids w) -> NoDup (user_ids (run ops w))).
    { induction ops as [|o' ops' IH]; intros w Hw; [exact Hw|].
      cbn [run fold_left]. apply IH.
      destruct (step_user_ids o' w) as [E|[Hnin E]]; rewrite E; [exact Hw|].
      apply NoDup_app; [exact Hw | repeat constructor; intros [] | ].
      intros x Hx [<-|[]]. exact (Hnin Hx). }
    apply H. constructor.
  - destruct (step_user_ids o (run ops (initial_world h c))) as [E|[_ E]]; auto.
Qed.

Lemma credited_app uid l r :
  credited uid (l ++ [r]) =
    credited uid l
    + (if String.eqb (RewardLedger.user_id r) uid then Z.max 0 (RewardLedger.coins r) else 0).
Proof. induction l as [|q l IH]; simpl; [lia | rewrite IH; lia]. Qed.

Lemma passes_count_app uid l p :
  passes_count uid (l ++ [p]) =
    passes_count uid l + (if String.eqb (PremiumPass.user_id p) uid then 1 else 0).
Proof. induction l as [|q l IH]; simpl; [lia | rewrite IH; lia]. Qed.

Lemma costs_at_least_ten key price : dict_get costs key = Some price -> 10 <= price.
Proof.
  unfold costs. cbn [dict_get].
  repeat match goal with
         | |- context [String.eqb ?a key] => destruct (String.eqb a key)
         end; intros [= <-]; lia.
Qed.

Lemma ensure_user_accounted uid0 w :
  accounted w -> accounted (snd (ensure_user uid0 w)).
Proof.
  intros H. destruct (handle w) eqn:Hh.
  - rewrite (ensure_user_no_handle _ _ Hh). exact H.
  - rewrite (ensure_user_untestable _ _ Hh). exact H.
  - destruct (find_user uid0 (userprofile (db w))) as [q|] eqn:E.
    + rewrite (ensure_user_found _ _ _ Hh E). exact H.
    + rewrite (ensure_user_created _ _ Hh E). intros uid. cbn.
      destruct (string_dec uid uid0) as [->|Hne].
      * rewrite (find_user_app_new uid0 _ (UserProfile.make uid0 WELCOME_COINS) E eq_refl).
        specialize (H uid0). rewrite E in H. destruct H as [Hp Hc].
        rewrite Hp, Hc. cbn. unfold WELCOME_COINS. lia.
      * rewrite find_user_app_other by (cbn; congruence). apply H.
Qed.

(** Setting the balance of a user to [c] keeps the account when [c], with
    what is added to the passes and the credits, stays within it. *)
Lemma balance_set_accounted uid0 c w p passes credits :
  find_user uid0 (userprofile (db w)) = Some p ->
  accounted w ->
  0 <= credits ->
  c + 10 * passes <= UserProfile.get_coins p + credits ->
  forall uid,
    match find_user uid (userprofile (db (balance_set uid0 c w))) with
    | Some q =>
        UserProfile.get_coins q
        + 10 * (passes_count uid (premiumpass (db w))
                + (if String.eqb uid0 uid then passes else 0))
        <= WELCOME_COINS
           + (credited uid (rewardledger (db w))
              + (if String.eqb uid0 uid then credits else 0))
    | None =>
        passes_count uid (premiumpass (db w)) = 0
        /\ credited uid (rewardledger (db w)) = 0
        /\ String.eqb uid0 uid = false
    end.
Proof.
  intros Hf H Hcr Hc uid. cbn [balance_set db userprofile].
  specialize (H uid).
  destruct (string_dec uid uid0) as [->|Hne].
  - rewrite (find_user_update _ _ _ _ Hf) by reflexivity.
    rewrite Hf in H. rewrite String.eqb_refl. cbn -[Z.add Z.mul]. lia.
  - rewrite find_user_update_other by (congruence || reflexivity).
    assert (E : String.eqb uid0 uid = false) by (apply String.eqb_neq; congruence).
    rewrite E, !Z.add_0_r. destruct (find_user uid (userprofile (db w))); tauto.
Qed.

Lemma fits_int64_spec z : fits_int64 z = true <-> - 2 ^ 63 <= z < 2 ^ 63.
Proof.
  unfold fits_int64. rewrite andb_true_iff, Z.leb_le, Z.ltb_lt. tauto.
Qed.

Lemma reward_accounted req w :
  balances_ok w -> accounted w -> accounted (snd (reward req w)).
Proof.
  intros Hb H. pose proof (ensure_user_accounted (rw_user_id req) w H) as H1.
  pose proof (ensure_user_balances_ok (rw_user_id req) w Hb) as Hb1.
  destruct (ensure_user_cases (rw_user_id req) w) as [(e & He)|(p & He & Hf & _)].
  { rewrite (reward_raises _ _ _ _ He). exact H. }
  rewrite (reward_run _ _ _ _ He).
  set (w1 := snd (ensure_user (rw_user_id req) w)) in *.
  pose proof (balance_ok_get_coins p (find_user_Forall _ _ _ _ Hb1 Hf)) as Hp.
  destruct (fits_int64 (UserProfile.get_coins p + Z.max 0 (rw_coins req))) eqn:F1;
    [|exact H1].
  apply fits_int64_spec in F1.
  destruct (fits_int64 (rw_coins req)) eqn:F2; cbn [snd].
  - intros uid.
    pose proof (balance_set_accounted (rw_user_id req)
                  (UserProfile.get_coins p + Z.max 0 (rw_coins req)) w1 p 0
                  (Z.max 0 (rw_coins req)) Hf H1 ltac:(lia) ltac:(lia) uid) as Hs.
    cbn [rewarded_world db userprofile rewardledger premiumpass].
    change (premiumpass (db (balance_set (rw_user_id req)
              (UserProfile.get_coins p + Z.max 0 (rw_coins req)) w1)))
      with (premiumpass (db w1)).
    change (rewardledger (db (balance_set (rw_user_id req)
              (UserProfile.get_coins p + Z.max 0 (rw_coins req)) w1)))
      with (rewardledger (db w1)).
    rewrite credited_app. cbn [ledger_entry RewardLedger.user_id RewardLedger.coins].
    destruct (find_user uid _);
      [|destruct Hs as (Hs1 & Hs2 & Hs3); rewrite ?Hs3; split; lia].
    destruct (String.eqb (rw_user_id req) uid); lia.
  - assert (Hz : Z.max 0 (rw_coins req) = 0).
    { destruct (Z_le_gt_dec (rw_coins req) 0) as [Hle|Hgt]; [lia|].
      assert (fits_int64 (rw_coins req) = true) by (apply fits_int64_spec; lia).
      congruence. }
    intros uid.
    pose proof (balance_set_accounted (rw_user_id req)
                  (UserProfile.get_coins p + Z.max 0 (rw_coins req)) w1 p 0 0
                  Hf H1 ltac:(lia) ltac:(lia) uid) as Hs.
    change (premiumpass (db (balance_set (rw_user_id req)
              (UserProfile.get_coins p + Z.max 0 (rw_coins req)) w1)))
      with (premiumpass (db w1)).
    change (rewardledger (db (balance_set (rw_user_id req)
              (UserProfile.get_coins p + Z.max 0 (rw_coins req)) w1)))
      with (rewardledger (db w1)).
    destruct (find_user uid _);
      [|destruct Hs as (Hs1 & Hs2 & Hs3); rewrite ?Hs3; split; lia].
    destruct (String.eqb (rw_user_id req) uid); lia.
Qed.

Lemma redeem_accounted req w : accounted w -> accounted (snd (redeem req w)).
Proof.
  intros H. pose proof (ensure_user_accounted (rd_user_id req) w H) as H1.
  destruct (dict_get pass_days (rd_duration req)) as [nd|] eqn:Ed.
  2:{ unfold redeem, bind, lift, dict_index. rewrite Ed. exact H. }
  destruct (ensure_user_cases (rd_user_id req) w) as [(e & He)|(p & He & Hf & _)].
  { rewrite (redeem_raises _ _ _ _ _ Ed He). exact H. }
  destruct (dict_get costs (rd_duration req)) as [price|] eqn:Ec.
  2:{ unfold redeem, bind, lift, dict_index. rewrite Ed, He, Ec. exact H1. }
  rewrite (redeem_run req w _ p price nd Ed Ec He).
  destruct (UserProfile.get_coins p <? price) eqn:El; cbn [snd]; [exact H1|].
  apply Z.ltb_ge in El. pose proof (costs_at_least_ten _ _ Ec) as Hprice.
  destruct (fits_int64 _); [|exact H1].
  set (w1 := snd (ensure_user (rd_user_id req) w)) in *.
  intros uid.
  pose proof (balance_set_accounted (rd_user_id req) (UserProfile.get_coins p - price)
                w1 p 1 0 Hf H1 ltac:(lia) ltac:(lia) uid) as Hs.
  cbn [snd redeemed_world db userprofile rewardledger premiumpass].
  change (premiumpass (db (balance_set (rd_user_id req)
            (UserProfile.get_coins p - price) w1)))
    with (premiumpass (db w1)).
  change (rewardledger (db (balance_set (rd_user_id req)
            (UserProfile.get_coins p - price) w1)))
    with (rewardledger (db w1)).
  rewrite passes_count_app. cbn [PremiumPass.user_id].
  destruct (find_user uid _);
    [|destruct Hs as (Hs1 & Hs2 & Hs3); rewrite ?Hs3; split; lia].
  destruct (String.eqb (rd_user_id req) uid); lia.
Qed.

(** X10: passes are never free and coins come from nowhere else: from the
    empty store, behind any handle, after any sequence of operations, the
    balance of a user plus ten coins for each of the user's passes is at
    most the welcome coins plus the coins the reward ledger credits to the
    user (each entry floored at zero); a user without a profile has no pass
    and no credit. *)
Theorem coins_accounted_for (h : Handle) (c : Clock) (ops : list op) :
  accounted (run ops (initial_world h c)).
Proof.
  assert (H : forall w, balances_ok w /\ accounted w ->
                        balances_ok (run ops w) /\ accounted (run ops w)).
  { induction ops as [|o ops' IH]; intros w Hw; [exact Hw|].
    cbn [run fold_left]. apply IH. destruct Hw as [Hb Ha].
    split; [apply step_balances_ok, Hb|].
    destruct o; cbn [step];
      [apply ensure_user_accounted | apply reward_accounted | apply redeem_accounted];
      assumption. }
  apply H. split.
  - unfold balances_ok, initial_world. cbn. constructor.
  - intros uid. cbn. split; reflexivity.
Qed.

(** X11: behind a handle that tests true, the welcome coins buy exactly one
    one-day pass.  For a user without a profile, [redeem] with "1d" creates
    the profile, succeeds and leaves the balance 0, after which every redeem
    of the user for a known duration is refused and changes nothing; a first
    redeem with "7d" or "30d" is refused. *)
Theorem welcome_coins_buy_one_day_pass (uid feature : string) (w : World) :
  handle w = Testable ->
  find_user uid (userprofile (db w)) = None ->
  (exists expires w2,
     redeem {| rd_user_id := uid; rd_feature := feature; rd_duration := "1d" |} w
     = (ok (Redeemed feature expires), w2)
     /\ coins uid w2 = (ok 0, w2)
     /\ forall req,
          rd_user_id req = uid ->
          In (rd_duration req) ["1d"; "7d"; "30d"] ->
          redeem req w2 = (ok NotEnoughCoins, w2))
  /\ (forall dur,
        In dur ["7d"; "30d"] ->
        fst (redeem {| rd_user_id := uid; rd_feature := feature; rd_duration := dur |} w)
        = ok NotEnoughCoins).
Proof.
  intros Hh Hnew. pose proof (ensure_user_created _ _ Hh Hnew) as He.
  set (w1 := profile_added (UserProfile.make uid WELCOME_COINS) w) in *.
  split.
  - set (req1 := {| rd_user_id := uid; rd_feature := feature; rd_duration := "1d" |}).
    assert (Hr := redeem_run req1 w w1 _ 10 1 eq_refl eq_refl He).
    change (UserProfile.get_coins (UserProfile.make uid WELCOME_COINS) <? 10) with false in Hr.
    change (fits_int64 (UserProfile.get_coins (UserProfile.make uid WELCOME_COINS) - 10))
      with true in Hr.
    cbv iota in Hr.
    eexists. exists (redeemed_world req1 w1 10 10 1).
    split; [exact Hr|].
    assert (Hh2 : handle (redeemed_world req1 w1 10 10 1) = Testable) by exact Hh.
    assert (Hf : find_user uid (userprofile (db (redeemed_world req1 w1 10 10 1)))
                 = Some (UserProfile.set_coins (10 - 10)
                           (readings (clock w1) (ticks (clock w1)))
                           (UserProfile.make uid WELCOME_COINS))).
    { unfold redeemed_world, balance_set. cbn [db userprofile rd_user_id req1].
      apply find_user_update; [|reflexivity].
      unfold w1. cbn. apply find_user_app_new; [exact Hnew | reflexivity]. }
    split; [rewrite (coins_of_found _ _ _ Hh2 Hf); reflexivity|].
    intros req Hu Hdur. destruct (duration_lookups _ Hdur) as (price & nd & Hd & Hc & Hp & _).
    rewrite <- Hu in Hf.
    rewrite (redeem_run req _ _ _ price nd Hd Hc (ensure_user_found _ _ _ Hh2 Hf)).
    replace (_ <? price) with true; [reflexivity|].
    symmetry. apply Z.ltb_lt. cbn. lia.
  - intros dur Hdur.
    destruct (duration_lookups dur ltac:(cbn [In] in *; tauto)) as (price & nd & Hd & Hc & _ & Hp).
    set (req := {| rd_user_id := uid; rd_feature := feature; rd_duration := dur |}).
    rewrite (redeem_run req w w1 _ price nd Hd Hc He).
    replace (_ <? price) with true; [reflexivity|].
    symmetry. apply Z.ltb_lt. cbn.
    assert (dur <> "1d") by (cbn [In] in Hdur; destruct Hdur as [<-|[<-|[]]]; discriminate).
    specialize (Hp H). unfold WELCOME_COINS. lia.
Qed.

Lemma welcome_coins_buy_one_day_pass_witness :
  fst (redeem (redeem_request "newcomer" "7d") (world_with_balance "u1" 500))
  = ok NotEnoughCoins.
Proof.
  apply (welcome_coins_buy_one_day_pass "newcomer" "offline_maps" (world_with_balance "u1" 500)).
  - reflexivity.
  - reflexivity.
  - simpl. auto.
Defined.

(** X17: behind a handle that tests true, coins that were just rewarded can
    be spent at once.  After a reward for a user whose balance was [bal],
    with amounts that fit the 8 bytes of the store, a redeem of the same
    user for a class whose price is within [bal] plus the rewarded coins
    (floored at zero) succeeds and leaves exactly the rest; with a higher
    price it is refused and the balance stays at [bal] plus the rewarded
    coins. *)
Theorem reward_then_redeem (rw : RewardRequest) (rd : RedeemRequest) (w : World)
    (bal price ndays : Z) :
  handle w = Testable ->
  rd_user_id rd = rw_user_id rw ->
  fst (coins (rw_user_id rw) w) = ok bal ->
  fits_int64 (bal + Z.max 0 (rw_coins rw)) = true ->
  fits_int64 (rw_coins rw) = true ->
  In (rd_duration rd, price, ndays) duration_classes ->
  let total := bal + Z.max 0 (rw_coins rw) in
  let w1 := snd (reward rw w) in
  (price <= total ->
   (exists expires, fst (redeem rd w1) = ok (Redeemed (rd_feature rd) expires))
   /\ fst (coins (rw_user_id rw) (snd (redeem rd w1))) = ok (total - price))
  /\ (total < price ->
      redeem rd w1 = (ok NotEnoughCoins, w1)
      /\ fst (coins (rw_user_id rw) w1) = ok total).
Proof.
  intros Hh Hu Hbal F1 F2 Hcls total w1.
  destruct (duration_class_lookup _ _ _ Hcls) as [Hd Hc].
  pose proof (costs_at_least_ten _ _ Hc) as Hprice.
  destruct (ensure_user_returns (rw_user_id rw) w Hh) as (p & He & Hf & _ & _ & _ & Hh0).
  assert (Hp : UserProfile.get_coins p = bal).
  { unfold coins, bind in Hbal. rewrite He in Hbal. cbn in Hbal.
    unfold ok in Hbal. injection Hbal as Hbal. exact Hbal. }
  set (w0 := snd (ensure_user (rw_user_id rw) w)) in *.
  assert (Hw1 : w1 = rewarded_world rw w0 total).
  { unfold w1. rewrite (reward_run _ _ _ _ He), Hp, F1, F2. reflexivity. }
  assert (Hh1 : handle w1 = Testable) by (rewrite Hw1; exact Hh0).
  set (q := UserProfile.set_coins total (readings (clock w0) (ticks (clock w0))) p).
  assert (Hq : find_user (rd_user_id rd) (userprofile (db w1)) = Some q).
  { rewrite Hw1, Hu. cbn [rewarded_world balance_set db userprofile].
    apply find_user_update; [exact Hf | reflexivity]. }
  pose proof (redeem_run rd w1 w1 q price ndays Hd Hc (ensure_user_found _ _ _ Hh1 Hq)) as Hr.
  change (UserProfile.get_coins q) with total in Hr.
  split; intros Hcmp.
  - replace (total <? price) with false in Hr by (symmetry; apply Z.ltb_ge; exact Hcmp).
    assert (F3 : fits_int64 (total - price) = true).
    { apply fits_int64_spec. apply fits_int64_spec in F1. fold total in F1. lia. }
    rewrite F3 in Hr. rewrite Hr. cbn [fst snd]. split; [eexists; reflexivity|].
    rewrite (coins_of_found _ _
               (UserProfile.set_coins (total - price)
                  (readings (clock w1) (ticks (clock w1))) q)); [reflexivity | exact Hh1 |].
    unfold redeemed_world, balance_set. cbn [db userprofile]. rewrite <- Hu.
    apply find_user_update; [exact Hq | reflexivity].
  - replace (total <? price) with true in Hr by (symmetry; apply Z.ltb_lt; exact Hcmp).
    split; [exact Hr|]. rewrite <- Hu, (coins_of_found _ _ _ Hh1 Hq). reflexivity.
Qed.

Lemma reward_then_redeem_witness :
  fst (coins "u1"
         (snd (redeem (redeem_request "u1" "7d")
                 (snd (reward {| rw_user_id := "u1"; rw_action := "referral";
                                 rw_coins := 45; rw_notes := None |}
                         (world_with_balance "u1" 5))))))
  = ok 0.
Proof.
  destruct (reward_then_redeem
              {| rw_user_id := "u1"; rw_action := "referral"; rw_coins := 45;
                 rw_notes := None |}
              (redeem_request "u1" "7d") (world_with_balance "u1" 5) 5 50 7)
    as [H _].
  - reflexivity.
  - reflexivity.
  - reflexivity.
  - reflexivity.
  - reflexivity.
  - simpl. auto.
  - destruct H as [_ H]; [simpl; lia|]. exact H.
Defined.

(** X18: behind a handle that tests true, when the stored balance is at
    least the price of the duration class ("1d": 10 coins, 1 day; "7d": 50
    coins, 7 days; "30d": 150 coins, 30 days), [redeem] stores the balance
    less the price, appends one pass whose expiry is the clock reading taken
    when the pass is built plus the days of the class, and returns that
    expiry; the balance read afterwards is the old one less the price. *)
Theorem redeem_debits_and_creates_pass (req : RedeemRequest) (w w1 : World)
    (bal price ndays : Z) :
  handle w = Testable ->
  In (rd_duration req, price, ndays) duration_classes ->
  coins (rd_user_id req) w = (ok bal, w1) ->
  price <= bal ->
  fits_int64 bal = true ->
  let now2 := readings (clock w1) (S (ticks (clock w1))) in
  let w2 := redeemed_world req w1 bal price ndays in
  redeem req w = (ok (Redeemed (rd_feature req) (now2 + timedelta_days ndays)), w2)
  /\ coins (rd_user_id req) w2 = (ok (bal - price), w2)
  /\ premiumpass (db w2) =
       (premiumpass (db w) ++
          [{| PremiumPass.user_id := rd_user_id req;
              PremiumPass.feature := rd_feature req;
              PremiumPass.expires_at := now2 + timedelta_days ndays;
              PremiumPass.created_at := None |}])%list
  /\ rewardledger (db w2) = rewardledger (db w).
Proof.
  intros Hh Hcls Hbal Hle Hfit now2 w2.
  destruct (duration_class_lookup _ _ _ Hcls) as [Hd Hc].
  pose proof (costs_at_least_ten _ _ Hc) as Hprice.
  destruct (coins_inv _ _ _ _ Hbal) as (_ & Hw1 & p & He & Hf & Hp).
  destruct (ensure_user_returns (rd_user_id req) w Hh) as (_ & _ & _ & _ & Hl & Hpass & Hh1).
  rewrite <- Hw1 in Hl, Hpass, Hh1.
  assert (F : fits_int64 (bal - price) = true).
  { apply fits_int64_spec. apply fits_int64_spec in Hfit. lia. }
  repeat split.
  - rewrite (redeem_run _ _ _ _ _ _ Hd Hc He), Hp.
    replace (bal <? price) with false by (symmetry; apply Z.ltb_ge; exact Hle).
    rewrite F. reflexivity.
  - assert (Hf2 : find_user (rd_user_id req) (userprofile (db w2)) =
                  Some (UserProfile.set_coins (bal - price)
                          (readings (clock w1) (ticks (clock w1))) p)).
    { unfold w2, redeemed_world, balance_set. cbn [db userprofile].
      apply find_user_update; auto. }
    assert (Hh2 : handle w2 = Testable) by exact Hh1.
    rewrite (coins_of_found _ _ _ Hh2 Hf2). reflexivity.
  - unfold w2, redeemed_world, balance_set. cbn [db premiumpass]. rewrite Hpass. reflexivity.
  - unfold w2, redeemed_world, balance_set. cbn [db rewardledger]. exact Hl.
Qed.

Lemma redeem_debits_and_creates_pass_witness :
  redeem (redeem_request "u1" "1d") (world_with_balance "u1" 20)
  = (ok (Redeemed "offline_maps" (1762214400000001 + 86400000000)),
     redeemed_world (redeem_request "u1" "1d") (world_with_balance "u1" 20) 20 10 1)
  /\ coins "u1"
       (redeemed_world (redeem_request "u1" "1d") (world_with_balance "u1" 20) 20 10 1)
     = (ok 10,
        redeemed_world (redeem_request "u1" "1d") (world_with_balance "u1" 20) 20 10 1).
Proof.
  destruct (redeem_debits_and_creates_pass (redeem_request "u1" "1d")
              (world_with_balance "u1" 20) (world_with_balance "u1" 20) 20 10 1)
    as (Hr & Hc & _).
  - reflexivity.
  - simpl. left. reflexivity.
  - reflexivity.
  - lia.
  - reflexivity.
  - split; [exact Hr | exact Hc].
Defined.

End LedgerMore.

(** ** The budget estimate on ordinary amounts *)

Section BudgetMore.

Local Open Scope result_scope.

(** X14: the [misc] and [stay] amounts of a returned breakdown are exact:
    below 2^53 in absolute value, [misc] is 5 * travelers * days and [stay]
    is the tier's rate (15 for an unknown tier) times days, as numbers. *)
Theorem misc_and_stay_exact (inp : BudgetInput) (out : BudgetOutput) :
  budget_calc inp = ok out ->
  Z.abs (5 * travelers inp * days inp) < 2 ^ 53 ->
  Z.abs (dict_get_default accom_map (accommodation inp) 15 * days inp) < 2 ^ 53 ->
  (F64.to_Q (misc (breakdown out)) == inject_Z (5 * travelers inp * days inp)%Z)%Q
  /\ (F64.to_Q (stay (breakdown out))
      == inject_Z (dict_get_default accom_map (accommodation inp) 15 * days inp)%Z)%Q.
Proof.
  intros Hout Hm Hs. destruct (budget_calc_breakdown _ _ Hout) as [-> ->].
  split; [apply (of_Z_small _ Hm) | apply (of_Z_small _ Hs)].
Qed.

Lemma misc_and_stay_exact_witness :
  exists out,
    budget_calc (budget_request "beach" "mid" "comfort" 3 12) = ok out
    /\ (F64.to_Q (misc (breakdown out)) == 180 # 1)%Q
    /\ (F64.to_Q (stay (breakdown out)) == 420 # 1)%Q.
Proof.
  destruct (budget_calc (budget_request "beach" "mid" "comfort" 3 12)) as [e|out] eqn:E;
    [vm_compute in E; discriminate E|].
  exists out. split; [reflexivity|].
  apply (misc_and_stay_exact (budget_request "beach" "mid" "comfort" 3 12) out E);
    vm_compute; reflexivity.
Defined.

(** X15: the only thing [budget_calc] is strict about is the daily style.
    With a known style it returns an estimate for any destination and
    accommodation strings and any day and traveler counts of ordinary size,
    zero and negative ones included: no input is validated. *)
Theorem budget_calc_returns_for_known_style (inp : BudgetInput) :
  In (daily_style inp) ["thrifty"; "standard"; "comfort"] ->
  Z.abs (travelers inp) < 2 ^ 53 ->
  80 * Z.abs (days inp) < 2 ^ 53 ->
  5 * Z.abs (travelers inp) * Z.abs (days inp) < 2 ^ 53 ->
  exists out, budget_calc inp = ok out.
Proof.
  intros Hstyle Ht Hd Htd.
  destruct (budget_calc_returns_bounded inp Hstyle Ht Hd Htd) as (out & _ & Hout & _).
  exists out. exact Hout.
Qed.

Lemma budget_calc_returns_for_known_style_witness :
  exists out, budget_calc (budget_request "the moon" "igloo" "comfort" (-2) 0) = ok out.
Proof.
  apply (budget_calc_returns_for_known_style
           (budget_request "the moon" "igloo" "comfort" (-2) 0));
    [simpl; auto | vm_compute; reflexivity ..].
Defined.

End BudgetMore.

(** ** Translation *)

Section Translate.

Lemma replace_absent old new s :
  Str.contains old s = false -> PyStr.replace old new s = s.
Proof.
  unfold PyStr.replace. induction s as [|c s IH]; [reflexivity|].
  cbn [Str.contains PyStr.replace_from]. intros H. apply orb_false_elim in H.
  destruct H as [Hp Hc]. rewrite Hp, (IH Hc). reflexivity.
Qed.

Lemma replace_skip old new x b :
  PyStr.replace_from old new (String.length x) (x ++ b) = PyStr.replace_from old new 0 b.
Proof. induction x as [|c x IH]; [reflexivity | exact IH]. Qed.

(** The first occurrence at the head is replaced and the scan goes on behind it. *)
Lemma replace_head c old' new b :
  PyStr.replace (String c old') new (String c old' ++ b)
  = new ++ PyStr.replace (String c old') new b.
Proof.
  unfold PyStr.replace. cbn [append PyStr.replace_from].
  change (String c (old' ++ b)) with (String c old' ++ b).
  rewrite prefix_app. cbn [String.length].
  replace (S (String.length old') - 1)%nat with (String.length old') by lia.
  rewrite replace_skip. reflexivity.
Qed.

Lemma replace_tail old new c r :
  String.prefix old (String c r) = false ->
  PyStr.replace old new (String c r) = String c (PyStr.replace old new r).
Proof. intros H. unfold PyStr.replace. cbn [PyStr.replace_from]. rewrite H. reflexivity. Qed.

Lemma rstrip_app_clean a b :
  PyStr.rstrip b = b -> b <> "" -> PyStr.rstrip (a ++ b) = a ++ b.
Proof.
  intros Hb Hne. induction a as [|c a IH]; [exact Hb|].
  cbn [append PyStr.rstrip]. rewrite IH.
  destruct (a ++ b) eqn:E; [|reflexivity].
  destruct a; [simpl in E; congruence | discriminate E].
Qed.

Lemma rstrip_app_inv a b :
  PyStr.rstrip (a ++ b) = a ++ b -> b <> "" -> PyStr.rstrip b = b.
Proof.
  intros H Hne. induction a as [|c a IH]; [exact H|].
  apply IH. cbn [append PyStr.rstrip] in H.
  destruct (PyStr.rstrip (a ++ b)) as [|d k] eqn:E.
  - destruct (PyStr.is_space c); [discriminate H|].
    injection H as H. destruct a; [simpl in H; congruence | discriminate H].
  - injection H as H. exact H.
Qed.

Lemma rstrip_idem s : PyStr.rstrip (PyStr.rstrip s) = PyStr.rstrip s.
Proof.
  induction s as [|c s IH]; [reflexivity|].
  cbn [PyStr.rstrip]. destruct (PyStr.rstrip s) as [|d k] eqn:E.
  - destruct (PyStr.is_space c) eqn:Ec; [reflexivity|].
    cbn [PyStr.rstrip]. rewrite Ec. reflexivity.
  - cbn [PyStr.rstrip] in *. rewrite IH. reflexivity.
Qed.

Lemma lstrip_starts_clean s : starts_clean (PyStr.lstrip s).
Proof.
  induction s as [|c s IH]; [exact I|].
  cbn [PyStr.lstrip]. destruct (PyStr.is_space c) eqn:E; [exact IH | exact E].
Qed.

Lemma rstrip_starts_clean s : starts_clean s -> starts_clean (PyStr.rstrip s).
Proof.
  destruct s as [|c s]; [trivial|]. cbn [starts_clean PyStr.rstrip]. intros H.
  destruct (PyStr.rstrip s); [rewrite H|]; exact H.
Qed.

Lemma lstrip_of_starts_clean s : starts_clean s -> PyStr.lstrip s = s.
Proof.
  destruct s as [|c s]; [reflexivity|]. cbn [starts_clean PyStr.lstrip].
  intros H. rewrite H. reflexivity.
Qed.

Lemma replace_hai_starts_clean s :
  starts_clean s -> starts_clean (PyStr.replace " hai " " is " s).
Proof.
  destruct s as [|c s]; [trivial|]. cbn [starts_clean]. intros H.
  rewrite replace_tail; [exact H|].
  cbn [String.prefix]. destruct (ascii_dec " " c) as [<-|_]; [discriminate H | reflexivity].
Qed.

Lemma replace_hai_nonempty s : s <> "" -> PyStr.replace " hai " " is " s <> "".
Proof.
  destruct s as [|c s]; [congruence|]. intros _.
  destruct (String.prefix " hai " (String c s)) eqn:E.
  - destruct (prefix_inv _ _ E) as [b ->]. rewrite replace_head. discriminate.
  - rewrite (replace_tail _ _ _ _ E). discriminate.
Qed.

Lemma replace_hai_ends_clean n :
  forall s, (String.length s <= n)%nat ->
    PyStr.rstrip s = s ->
    PyStr.rstrip (PyStr.replace " hai " " is " s) = PyStr.replace " hai " " is " s.
Proof.
  induction n as [|n IH]; intros s Hlen Hs.
  - destruct s; [reflexivity | simpl in Hlen; lia].
  - destruct s as [|c r]; [reflexivity|].
    destruct (String.prefix " hai " (String c r)) eqn:E.
    + destruct (prefix_inv _ _ E) as [b Eb]. rewrite Eb in *.
      destruct (string_dec b "") as [->|Hb]; [discriminate Hs|].
      rewrite replace_head.
      apply rstrip_app_clean; [|apply replace_hai_nonempty, Hb].
      apply IH; [|exact (rstrip_app_inv _ _ Hs Hb)].
      simpl in Hlen. lia.
    + rewrite (replace_tail _ _ _ _ E).
      destruct (string_dec r "") as [->|Hr]; [exact Hs|].
      change (String c (PyStr.replace " hai " " is " r))
        with (String c "" ++ PyStr.replace " hai " " is " r).
      apply rstrip_app_clean; [|apply replace_hai_nonempty, Hr].
      apply IH; [simpl in Hlen; lia|].
      exact (rstrip_app_inv (String c "") r Hs Hr).
Qed.

(** X16: on ASCII text, for a target that does not start with "hi",
    [translate] returns text without white space at either end, and it
    returns the stripped text itself when " hai " does not occur in it; for
    a target that starts with "hi" it returns "[HI] " followed by the
    stripped text. *)
Theorem translate_result (req : TranslateRequest) :
  Str.is_ascii (tr_text req) = true ->
  (String.prefix "hi" (tr_target req) = false ->
   PyStr.strip (translate req) = translate req
   /\ (Str.contains " hai " (PyStr.strip (tr_text req)) = false ->
       translate req = PyStr.strip (tr_text req)))
  /\ (String.prefix "hi" (tr_target req) = true ->
      translate req = "[HI] " ++ PyStr.strip (tr_text req)).
Proof.
  intros _.
  unfold translate. split; intros Ht; rewrite Ht; [|reflexivity].
  split; [|apply replace_absent].
  set (u := PyStr.strip (tr_text req)).
  assert (Hstart : starts_clean u)
    by (apply rstrip_starts_clean, lstrip_starts_clean).
  assert (Hend : PyStr.rstrip u = u) by apply rstrip_idem.
  unfold PyStr.strip at 1.
  rewrite (lstrip_of_starts_clean _ (replace_hai_starts_clean _ Hstart)).
  apply (replace_hai_ends_clean (String.length u)); [lia | exact Hend].
Qed.

Lemma translate_result_witness :
  translate {| tr_text := "  yeh mera ghar hai aur accha hai  "; tr_target := "en" |}
  = PyStr.strip
      (translate {| tr_text := "  yeh mera ghar hai aur accha hai  "; tr_target := "en" |}).
Proof.
  symmetry.
  apply (translate_result
           {| tr_text := "  yeh mera ghar hai aur accha hai  "; tr_target := "en" |}).
  - reflexivity.
  - reflexivity.
Defined.

End Translate.
